(** * Spectrometer GUI: acquisition-to-profile pipeline and two-point calibration

    Shallow embedding of [src/main.py] (classes [Webcam] and
    [SpectrometerGUI]).  The cursor positions, the wavelengths and the
    calibration computed from them are binary64 floats with the machine's
    arithmetic, and the float test [px1 == px2] is IEEE equality.  The
    intensities of a profile, which are means of 8-bit samples, and the
    geometry of the region are kept as exact rationals.  Widget attributes
    that the handlers read or write are fields of one record; every handler
    is a state transformer that can raise. *)

From Stdlib Require Import String ZArith QArith Qround Qabs Qcanon Qfield Lqa.
From Stdlib Require Import Bool List Lia.
From Stdlib Require Import Floats.
Import ListNotations.

Set Implicit Arguments.

(* ------------------------------------------------------------------ *)
(** ** Exceptions and the handler monad *)

Inductive exn : Type :=
| RuntimeError (msg : string)
| AttributeError (attr : string).

Inductive result (A : Type) : Type :=
| Returned (a : A)
| Raised (e : exn).

Arguments Returned {A} a.
Arguments Raised {A} e.

(** A method of an object with state [S]: it returns or raises, and the
    attribute writes done before a raise stay done. *)
Definition M (S A : Type) : Type := S -> result A * S.

Definition ret {S A} (a : A) : M S A := fun s => (Returned a, s).

Definition raise {S A} (e : exn) : M S A := fun s => (Raised e, s).

Definition bind {S A B} (c : M S A) (k : A -> M S B) : M S B :=
  fun s => match c s with
           | (Returned a, s') => k a s'
           | (Raised e, s') => (Raised e, s')
           end.

Definition get {S} : M S S := fun s => (Returned s, s).

Definition modify {S} (f : S -> S) : M S unit := fun s => (Returned tt, f s).

Declare Scope py_scope.
Delimit Scope py_scope with py.
Notation "x <- c ;; k" := (bind c (fun x => k))
  (at level 61, c at next level, right associativity) : py_scope.
Notation "c ;; k" := (bind c (fun _ => k))
  (at level 61, right associativity) : py_scope.

(* ------------------------------------------------------------------ *)
(** ** numpy: the array operations the handlers use *)

Module Np.

(** A 2-D array is the list of its rows. *)
Definition array2 (A : Type) : Type := list (list A).

(** [a.shape] and [a.size] of a 2-D array, as numpy defines them. *)
Definition shape {A} (a : array2 A) : nat * nat :=
  (length a, length (hd [] a)).

Definition size {A} (a : array2 A) : nat :=
  (fst (shape a) * snd (shape a))%nat.

(** [a.T]: column [c] of [a] becomes row [c]. *)
Definition column {A} (c : nat) (a : array2 A) : list A :=
  flat_map (fun row => match nth_error row c with
                       | Some v => [v]
                       | None => []
                       end) a.

Definition T {A} (a : array2 A) : array2 A :=
  map (fun c => column c a) (seq 0 (snd (shape a))).

(** Modelled from the spec: [np.arange] is numpy's and is not under src/.
    [np.arange(n)] is the array 0, 1, ..., n-1. *)
Definition arange (n : nat) : list Z := map Z.of_nat (seq 0 n).

(** The float64 of an integer of an index array, as numpy converts it when
    the array is multiplied by a float. *)
Definition float64 (z : Z) : float :=
  if (z <? 0)%Z then PrimFloat.opp (PrimFloat.of_uint63 (Uint63.of_Z (- z)))
  else PrimFloat.of_uint63 (Uint63.of_Z z).

(** Element-wise addition of two rows of one length (numpy's [+]). *)
Fixpoint add (a b : list Q) : list Q :=
  match a, b with
  | x :: a', y :: b' => (x + y)%Q :: add a' b'
  | _, _ => []
  end.

(** [a.sum(axis=0)]: the rows are added up, first to last. *)
Definition sum_axis0 (a : array2 Q) : list Q :=
  match a with
  | [] => []
  | r :: rs => fold_left add rs r
  end.

(** Modelled from the spec: [ndarray.mean] is numpy's and is not under
    src/.  [a.mean(axis=0)] is the sum along axis 0 divided by the number of
    rows, one sample per column. *)
Definition mean_axis0 (a : array2 Q) : list Q :=
  map (fun s => (s / inject_Z (Z.of_nat (length a)))%Q) (sum_axis0 a).

End Np.

(* ------------------------------------------------------------------ *)
(** ** cv2: flips *)

Module Cv2.

(** Modelled from the spec: [cv2.flip] is OpenCV's and is not under src/.
    Flip code 1 is the horizontal flip (each row reversed, mirror left to
    right), flip code 0 the vertical flip (the rows reversed, mirror top to
    bottom); a negative code does both. *)
Definition flip {A} (frame : Np.array2 A) (flipCode : Z) : Np.array2 A :=
  if (flipCode =? 0)%Z then rev frame
  else if (0 <? flipCode)%Z then map (@rev A) frame
  else rev (map (@rev A) frame).

(** [cv2.cvtColor(frame, cv2.COLOR_BGR2GRAY)]: one luminance sample per
    pixel; the weighting [BGR2GRAY] is OpenCV's. *)
Definition cvtColor {pixel} (BGR2GRAY : pixel -> Z)
  (frame : Np.array2 pixel) : Np.array2 Z :=
  map (map BGR2GRAY) frame.

End Cv2.

(** The image turned by 180 degrees: the sample at row [r], column [c]
    comes from row [H-1-r], column [W-1-c]. *)
Definition rot180 {A} (frame : Np.array2 A) : Np.array2 A :=
  rev (map (@rev A) frame).

Definition pixel_at {A} (frame : Np.array2 A) (r c : nat) : option A :=
  match nth_error frame r with
  | Some row => nth_error row c
  | None => None
  end.

Definition rectangular {A} (frame : Np.array2 A) (H W : nat) : Prop :=
  length frame = H /\ Forall (fun row => length row = W) frame.

(* ------------------------------------------------------------------ *)
(** ** pyqtgraph: the rectangular ROI and its array region *)

Module Pg.

(** [pg.RectROI(pos, size)]: top-left corner and (width, height), floats. *)
Record RectROI : Type := { pos : Q * Q; size : Q * Q }.

Definition x (roi : RectROI) : Q := fst (pos roi).
Definition y (roi : RectROI) : Q := snd (pos roi).
Definition width (roi : RectROI) : Q := fst (size roi).
Definition height (roi : RectROI) : Q := snd (size roi).

(** Rows [r0 .. r0+nr-1] and columns [c0 .. c0+nc-1] of [data], with the
    entries as the numbers of a region array. *)
Definition crop (data : Np.array2 Z) (r0 nr c0 nc : nat) : Np.array2 Q :=
  map (fun row => map inject_Z (firstn nc (skipn c0 row)))
      (firstn nr (skipn r0 data)).

(** [data[r][c]], an index outside the array being reset to 0 as the
    library's interpolation does before it reads. *)
Definition at_index (data : Np.array2 Z) (r c : Z) : Z :=
  let '(H, W) := Np.shape data in
  let r' := if (0 <=? r)%Z && (r <? Z.of_nat H)%Z then r else 0%Z in
  let c' := if (0 <=? c)%Z && (c <? Z.of_nat W)%Z then c else 0%Z in
  nth (Z.to_nat c') (nth (Z.to_nat r') data []) 0%Z.

(** The library's linear interpolation of [data] at row [r], column [c]:
    the four surrounding samples weighted by the distances, and 0 for a
    point outside [0, H-1] x [0, W-1].  The value is kept reduced. *)
Definition interpolate (data : Np.array2 Z) (r c : Q) : Q :=
  let '(H, W) := Np.shape data in
  let r0 := Qfloor r in
  let c0 := Qfloor c in
  if (0 <=? r0)%Z && Qle_bool r (inject_Z (Z.of_nat H - 1))
     && (0 <=? c0)%Z && Qle_bool c (inject_Z (Z.of_nat W - 1))
  then
    let dr := r - inject_Z r0 in
    let dc := c - inject_Z c0 in
    Qred ((1 - dr) * (1 - dc) * inject_Z (at_index data r0 c0)
          + (1 - dr) * dc * inject_Z (at_index data r0 (c0 + 1))
          + dr * (1 - dc) * inject_Z (at_index data (r0 + 1) c0)
          + dr * dc * inject_Z (at_index data (r0 + 1) (c0 + 1)))
  else 0.

(** The axis order of an image item, the library's configuration option
    [imageAxisOrder]: with [col_major], the library's default, axis 0 of an
    image array runs along x; with [row_major] axis 0 runs along y, rows
    first.  [src/main.py] does not set the option. *)
Inductive axis_order : Type :=
| col_major
| row_major.

(** The library's [affineSlice] for unit steps along the two axes of
    [data]: entry (i, j) of the [n0] x [n1] result is [data] interpolated
    at index [o0 + i] on axis 0 and [o1 + j] on axis 1. *)
Definition affineSlice (data : Np.array2 Z) (n0 n1 : nat) (o0 o1 : Q)
  : Np.array2 Q :=
  map (fun i =>
         map (fun j => interpolate data (o0 + inject_Z (Z.of_nat i))
                                        (o1 + inject_Z (Z.of_nat j)))
             (seq 0 n1))
      (seq 0 n0).

(** [ROI.getArrayRegion(data, img)] with the default [axes=(0,1)].  It is
    pyqtgraph's and is not under src/; this is what the library does for a
    rectangular ROI that is neither rotated nor scaled against the image
    item, which is not what section 4.2 of the specification describes.  The
    region is not clamped to the array.  The slice has ceil(|width|) points
    along x and ceil(|height|) points along y, starting at the region's
    corner.  With the image item in [col_major] order, axis 0 of [data] is
    read along x and axis 1 along y; in [row_major] order axis 0 is read
    along y and axis 1 along x.  The image item [img] places the region and
    gives the axis order; its pixels are not read. *)
Definition getArrayRegion (order : axis_order) (roi : RectROI)
  (data : Np.array2 Z) (img : option (Np.array2 Z)) : option (Np.array2 Q) :=
  let nx := Z.to_nat (Qceiling (Qabs (width roi))) in
  let ny := Z.to_nat (Qceiling (Qabs (height roi))) in
  match order with
  | col_major => Some (affineSlice data nx ny (x roi) (y roi))
  | row_major => Some (affineSlice data ny nx (y roi) (x roi))
  end.

End Pg.

(* ------------------------------------------------------------------ *)
(** ** class Webcam *)

Record Webcam : Type := { flip_h : bool; flip_v : bool }.

(** [Webcam.read]; [cap] is what [self.cap.read()] delivers on this call:
    [None] for [ok == False], the raw frame otherwise. *)
Definition read {pixel} (self : Webcam) (cap : option (Np.array2 pixel))
  : result (Np.array2 pixel) :=
  match cap with
  | None => Raised (RuntimeError "Frame non disponibile")
  | Some frame =>
      let frame := if flip_h self then Cv2.flip frame 1 else frame in
      let frame := if flip_v self then Cv2.flip frame 0 else frame in
      Returned frame
  end.

(* ------------------------------------------------------------------ *)
(** ** class SpectrometerGUI: the attributes *)

(** The bottom axis label of the spectrum plot. *)
Inductive axis_label : Type :=
| Pixel
| Wavelength_nm.

(** One x value of the curve: a pixel index out of [np.arange], or the
    float the mapping gives it. *)
Inductive axis_value : Type :=
| Px (index : Z)
| Nm (wavelength : float).

(** The function object stored in [self.px_to_nm]; the only one the program
    builds is [lambda px: self.slope * px + self.intercept], which reads
    both attributes of [self] when it is called. *)
Inductive closure : Type :=
| Lambda_slope_intercept.

Record SpectrometerGUI : Type := {
  cam : Webcam;
  chk_flip_h : bool;
  chk_flip_v : bool;
  roi : Pg.RectROI;
  img_view : option (Np.array2 Z);       (* image shown by [img_view] *)
  spec_label : axis_label;               (* bottom label of [spec_plot] *)
  spec_curve : list axis_value * list Q; (* data of [spec_curve]: x, y *)
  l1 : float;                            (* position of cursor line 1 *)
  l2 : float;                            (* position of cursor line 2 *)
  spin_l1 : float;
  spin_l2 : float;
  calib_set : bool;
  slope : option float;                  (* [None]: attribute not yet set *)
  intercept : option float;
  px_to_nm : option closure
}.

(** The attributes after [__init__]. *)
Definition init : SpectrometerGUI := {|
  cam := {| flip_h := false; flip_v := false |};
  chk_flip_h := false;
  chk_flip_v := false;
  roi := {| Pg.pos := (200, 200)%Q; Pg.size := (200, 100)%Q |};
  img_view := None;
  spec_label := Pixel;
  spec_curve := ([], []);
  l1 := 0%float;
  l2 := 0%float;
  spin_l1 := 436%float;
  spin_l2 := 546%float;
  calib_set := false;
  slope := None;
  intercept := None;
  px_to_nm := None
|}.

Definition set_cam (c : Webcam) (g : SpectrometerGUI) : SpectrometerGUI :=
  {| cam := c; chk_flip_h := chk_flip_h g; chk_flip_v := chk_flip_v g;
     roi := roi g; img_view := img_view g; spec_label := spec_label g;
     spec_curve := spec_curve g; l1 := l1 g; l2 := l2 g;
     spin_l1 := spin_l1 g; spin_l2 := spin_l2 g; calib_set := calib_set g;
     slope := slope g; intercept := intercept g; px_to_nm := px_to_nm g |}.

Definition set_chk_flip_h (b : bool) (g : SpectrometerGUI) : SpectrometerGUI :=
  {| cam := cam g; chk_flip_h := b; chk_flip_v := chk_flip_v g;
     roi := roi g; img_view := img_view g; spec_label := spec_label g;
     spec_curve := spec_curve g; l1 := l1 g; l2 := l2 g;
     spin_l1 := spin_l1 g; spin_l2 := spin_l2 g; calib_set := calib_set g;
     slope := slope g; intercept := intercept g; px_to_nm := px_to_nm g |}.

Definition set_chk_flip_v (b : bool) (g : SpectrometerGUI) : SpectrometerGUI :=
  {| cam := cam g; chk_flip_h := chk_flip_h g; chk_flip_v := b;
     roi := roi g; img_view := img_view g; spec_label := spec_label g;
     spec_curve := spec_curve g; l1 := l1 g; l2 := l2 g;
     spin_l1 := spin_l1 g; spin_l2 := spin_l2 g; calib_set := calib_set g;
     slope := slope g; intercept := intercept g; px_to_nm := px_to_nm g |}.

Definition set_roi (r : Pg.RectROI) (g : SpectrometerGUI) : SpectrometerGUI :=
  {| cam := cam g; chk_flip_h := chk_flip_h g; chk_flip_v := chk_flip_v g;
     roi := r; img_view := img_view g; spec_label := spec_label g;
     spec_curve := spec_curve g; l1 := l1 g; l2 := l2 g;
     spin_l1 := spin_l1 g; spin_l2 := spin_l2 g; calib_set := calib_set g;
     slope := slope g; intercept := intercept g; px_to_nm := px_to_nm g |}.

Definition set_img_view (i : Np.array2 Z) (g : SpectrometerGUI)
  : SpectrometerGUI :=
  {| cam := cam g; chk_flip_h := chk_flip_h g; chk_flip_v := chk_flip_v g;
     roi := roi g; img_view := Some i; spec_label := spec_label g;
     spec_curve := spec_curve g; l1 := l1 g; l2 := l2 g;
     spin_l1 := spin_l1 g; spin_l2 := spin_l2 g; calib_set := calib_set g;
     slope := slope g; intercept := intercept g; px_to_nm := px_to_nm g |}.

Definition set_spec_label (l : axis_label) (g : SpectrometerGUI)
  : SpectrometerGUI :=
  {| cam := cam g; chk_flip_h := chk_flip_h g; chk_flip_v := chk_flip_v g;
     roi := roi g; img_view := img_view g; spec_label := l;
     spec_curve := spec_curve g; l1 := l1 g; l2 := l2 g;
     spin_l1 := spin_l1 g; spin_l2 := spin_l2 g; calib_set := calib_set g;
     slope := slope g; intercept := intercept g; px_to_nm := px_to_nm g |}.

Definition set_spec_curve (d : list axis_value * list Q) (g : SpectrometerGUI)
  : SpectrometerGUI :=
  {| cam := cam g; chk_flip_h := chk_flip_h g; chk_flip_v := chk_flip_v g;
     roi := roi g; img_view := img_view g; spec_label := spec_label g;
     spec_curve := d; l1 := l1 g; l2 := l2 g;
     spin_l1 := spin_l1 g; spin_l2 := spin_l2 g; calib_set := calib_set g;
     slope := slope g; intercept := intercept g; px_to_nm := px_to_nm g |}.

Definition set_l1 (q : float) (g : SpectrometerGUI) : SpectrometerGUI :=
  {| cam := cam g; chk_flip_h := chk_flip_h g; chk_flip_v := chk_flip_v g;
     roi := roi g; img_view := img_view g; spec_label := spec_label g;
     spec_curve := spec_curve g; l1 := q; l2 := l2 g;
     spin_l1 := spin_l1 g; spin_l2 := spin_l2 g; calib_set := calib_set g;
     slope := slope g; intercept := intercept g; px_to_nm := px_to_nm g |}.

Definition set_l2 (q : float) (g : SpectrometerGUI) : SpectrometerGUI :=
  {| cam := cam g; chk_flip_h := chk_flip_h g; chk_flip_v := chk_flip_v g;
     roi := roi g; img_view := img_view g; spec_label := spec_label g;
     spec_curve := spec_curve g; l1 := l1 g; l2 := q;
     spin_l1 := spin_l1 g; spin_l2 := spin_l2 g; calib_set := calib_set g;
     slope := slope g; intercept := intercept g; px_to_nm := px_to_nm g |}.

Definition set_spin_l1 (q : float) (g : SpectrometerGUI) : SpectrometerGUI :=
  {| cam := cam g; chk_flip_h := chk_flip_h g; chk_flip_v := chk_flip_v g;
     roi := roi g; img_view := img_view g; spec_label := spec_label g;
     spec_curve := spec_curve g; l1 := l1 g; l2 := l2 g;
     spin_l1 := q; spin_l2 := spin_l2 g; calib_set := calib_set g;
     slope := slope g; intercept := intercept g; px_to_nm := px_to_nm g |}.

Definition set_spin_l2 (q : float) (g : SpectrometerGUI) : SpectrometerGUI :=
  {| cam := cam g; chk_flip_h := chk_flip_h g; chk_flip_v := chk_flip_v g;
     roi := roi g; img_view := img_view g; spec_label := spec_label g;
     spec_curve := spec_curve g; l1 := l1 g; l2 := l2 g;
     spin_l1 := spin_l1 g; spin_l2 := q; calib_set := calib_set g;
     slope := slope g; intercept := intercept g; px_to_nm := px_to_nm g |}.

Definition set_slope (q : float) (g : SpectrometerGUI) : SpectrometerGUI :=
  {| cam := cam g; chk_flip_h := chk_flip_h g; chk_flip_v := chk_flip_v g;
     roi := roi g; img_view := img_view g; spec_label := spec_label g;
     spec_curve := spec_curve g; l1 := l1 g; l2 := l2 g;
     spin_l1 := spin_l1 g; spin_l2 := spin_l2 g; calib_set := calib_set g;
     slope := Some q; intercept := intercept g; px_to_nm := px_to_nm g |}.

Definition set_intercept (q : float) (g : SpectrometerGUI) : SpectrometerGUI :=
  {| cam := cam g; chk_flip_h := chk_flip_h g; chk_flip_v := chk_flip_v g;
     roi := roi g; img_view := img_view g; spec_label := spec_label g;
     spec_curve := spec_curve g; l1 := l1 g; l2 := l2 g;
     spin_l1 := spin_l1 g; spin_l2 := spin_l2 g; calib_set := calib_set g;
     slope := slope g; intercept := Some q; px_to_nm := px_to_nm g |}.

Definition set_px_to_nm (f : closure) (g : SpectrometerGUI) : SpectrometerGUI :=
  {| cam := cam g; chk_flip_h := chk_flip_h g; chk_flip_v := chk_flip_v g;
     roi := roi g; img_view := img_view g; spec_label := spec_label g;
     spec_curve := spec_curve g; l1 := l1 g; l2 := l2 g;
     spin_l1 := spin_l1 g; spin_l2 := spin_l2 g; calib_set := calib_set g;
     slope := slope g; intercept := intercept g; px_to_nm := Some f |}.

Definition set_calib_set (b : bool) (g : SpectrometerGUI) : SpectrometerGUI :=
  {| cam := cam g; chk_flip_h := chk_flip_h g; chk_flip_v := chk_flip_v g;
     roi := roi g; img_view := img_view g; spec_label := spec_label g;
     spec_curve := spec_curve g; l1 := l1 g; l2 := l2 g;
     spin_l1 := spin_l1 g; spin_l2 := spin_l2 g; calib_set := b;
     slope := slope g; intercept := intercept g; px_to_nm := px_to_nm g |}.

(* ------------------------------------------------------------------ *)
(** ** class SpectrometerGUI: the methods *)

(** What the ROI reducer hands on: no data, or the intensity profile. *)
Inductive reduction : Type :=
| Empty
| Profile (spec : list Q).

Local Open Scope py_scope.

Section Handlers.

(** The camera's pixel type and the two library routines the handlers call
    without fixing what they compute. *)
Variable pixel : Type.
Variable BGR2GRAY : pixel -> Z.
Variable getArrayRegion :
  Pg.RectROI -> Np.array2 Z -> option (Np.array2 Z) -> option (Np.array2 Q).

(** [self.cam.read()]. *)
Definition cam_read (cap : option (Np.array2 pixel))
  : M SpectrometerGUI (Np.array2 pixel) :=
  fun self => (read (cam self) cap, self).

(** Reading [self.slope] and [self.intercept]. *)
Definition getattr_slope : M SpectrometerGUI float :=
  fun self => match slope self with
              | Some s => (Returned s, self)
              | None => (Raised (AttributeError "slope"), self)
              end.

Definition getattr_intercept : M SpectrometerGUI float :=
  fun self => match intercept self with
              | Some i => (Returned i, self)
              | None => (Raised (AttributeError "intercept"), self)
              end.

(** [self.px_to_nm(x)] on an index array [x], element by element in
    binary64. *)
Definition call_px_to_nm (x : list Z) : M SpectrometerGUI (list float) :=
  fun self => match px_to_nm self with
              | None => (Raised (AttributeError "px_to_nm"), self)
              | Some Lambda_slope_intercept =>
                  (s <- getattr_slope ;;
                   i <- getattr_intercept ;;
                   ret (map (fun px => s * Np.float64 px + i)%float x)) self
              end.

(** Lines 146-149 of [update_frame]: the region of the gray frame, the
    emptiness test, the mean along axis 0. *)
Definition reduce (roi : Pg.RectROI) (gray : Np.array2 Z)
  (img : option (Np.array2 Z)) : reduction :=
  match getArrayRegion roi gray img with
  | None => Empty
  | Some roi_img =>
      if (Np.size roi_img =? 0)%nat then Empty
      else Profile (Np.mean_axis0 roi_img)
  end.

(** Lines 150-155 of [update_frame]: the x values for a profile of [n]
    samples, and the bottom label that goes with them. *)
Definition axis_for (n : nat) : M SpectrometerGUI (list axis_value) :=
  let x := Np.arange n in
  self <- get ;;
  if calib_set self then
    x' <- call_px_to_nm x ;;
    modify (set_spec_label Wavelength_nm) ;;
    ret (map Nm x')
  else
    modify (set_spec_label Pixel) ;;
    ret (map Px x).

Definition update_frame (cap : option (Np.array2 pixel))
  : M SpectrometerGUI unit :=
  frame <- cam_read cap ;;
  let gray := Cv2.cvtColor BGR2GRAY frame in
  modify (set_img_view (Np.T gray)) ;;
  self <- get ;;
  match reduce (roi self) gray (img_view self) with
  | Empty => ret tt
  | Profile spec =>
      x <- axis_for (length spec) ;;
      modify (set_spec_curve (x, spec))
  end.

Definition apply_calib : M SpectrometerGUI unit :=
  self <- get ;;
  let px1 := l1 self in
  let px2 := l2 self in
  if (px1 =? px2)%float then ret tt
  else
    let l1 := spin_l1 self in
    let l2 := spin_l2 self in
    modify (set_slope ((l2 - l1) / (px2 - px1))%float) ;;
    slope <- getattr_slope ;;
    modify (set_intercept (l1 - slope * px1)%float) ;;
    modify (set_px_to_nm Lambda_slope_intercept) ;;
    modify (set_calib_set true).

Definition _set_flip : M SpectrometerGUI unit :=
  modify (fun self =>
    set_cam {| flip_h := chk_flip_h self; flip_v := flip_v (cam self) |} self) ;;
  modify (fun self =>
    set_cam {| flip_h := flip_h (cam self); flip_v := chk_flip_v self |} self).

(** What the event loop can deliver: the timer's timeout with what the
    capture device gives on that tick, and the operator's actions on the
    widgets. *)
Inductive event : Type :=
| Timeout (cap : option (Np.array2 pixel))
| FlipH_stateChanged (checked : bool)
| FlipV_stateChanged (checked : bool)
| Roi_changed (r : Pg.RectROI)
| L1_moved (px : float)
| L2_moved (px : float)
| SpinL1_changed (nm : float)
| SpinL2_changed (nm : float)
| Slider_valueChanged (prop_id val : Z)
| Calib_clicked.

(** The slot connected to each signal.  A slider only writes a property of
    the capture device, which is no attribute of the window; the range and
    the decimals of the spin boxes are the toolkit's, any value is allowed
    here. *)
Definition handle (e : event) : M SpectrometerGUI unit :=
  match e with
  | Timeout cap => update_frame cap
  | FlipH_stateChanged b => modify (set_chk_flip_h b) ;; _set_flip
  | FlipV_stateChanged b => modify (set_chk_flip_v b) ;; _set_flip
  | Roi_changed r => modify (set_roi r)
  | L1_moved px => modify (set_l1 px)
  | L2_moved px => modify (set_l2 px)
  | SpinL1_changed nm => modify (set_spin_l1 nm)
  | SpinL2_changed nm => modify (set_spin_l2 nm)
  | Slider_valueChanged _ _ => ret tt
  | Calib_clicked => apply_calib
  end.

(** The attributes after one event, and after a sequence of events; a slot
    that raises leaves the attributes as they were at the raise. *)
Definition step (self : SpectrometerGUI) (e : event) : SpectrometerGUI :=
  snd (handle e self).

Definition run (self : SpectrometerGUI) (es : list event) : SpectrometerGUI :=
  fold_left step es self.

End Handlers.

(** The installed mapping applied to one pixel position. *)
Definition apply_to (self : SpectrometerGUI) (px : float) : option float :=
  match px_to_nm self, slope self, intercept self with
  | Some Lambda_slope_intercept, Some s, Some i => Some (s * px + i)%float
  | _, _, _ => None
  end.

(* ------------------------------------------------------------------ *)
(** ** The words of the specification, for comparison with the code *)



Definition Qsum (l : list Q) : Q := fold_right Qplus 0%Q l.








(** The calibration model of the specification, read off the attributes. *)
Inductive CalibrationModel : Type :=
| Unset
| Linear (slope intercept : float).

Definition model (self : SpectrometerGUI) : option CalibrationModel :=
  if calib_set self then
    match px_to_nm self, slope self, intercept self with
    | Some Lambda_slope_intercept, Some s, Some i => Some (Linear s i)
    | _, _, _ => None
    end
  else Some Unset.

(* ------------------------------------------------------------------ *)
(** ** Concrete data for the scenarios *)

(** A camera pixel in OpenCV's channel order, and one fixed-point luma. *)
Record bgr : Type := { blue : Z; green : Z; red : Z }.

Definition luma (p : bgr) : Z :=
  ((1868 * blue p + 9617 * green p + 4899 * red p + 8192) / 16384)%Z.

Definition grey (v : Z) : bgr := {| blue := v; green := v; red := v |}.

(** Six rows of twelve columns; in the first four rows column [c] holds
    [10*c], the last two rows hold 255. *)
Definition ramp_row : list Z := map (fun c => (10 * Z.of_nat c)%Z) (seq 0 12).

Definition ramp_frame : Np.array2 Z :=
  repeat ramp_row 4 ++ repeat (repeat 255%Z 12) 2.

(** The same frame as the camera delivers it, all three channels equal. *)
Definition ramp_bgr : Np.array2 bgr := map (map grey) ramp_frame.

Definition roi_10x4 : Pg.RectROI :=
  {| Pg.pos := (0, 0)%Q; Pg.size := (10, 4)%Q |}.





(** A region of no width. *)
Definition roi_flat : Pg.RectROI :=
  {| Pg.pos := (3, 1)%Q; Pg.size := (0, 2)%Q |}.

(** The region routine as the window's image view calls it: the image item
    is in the library's default axis order. *)
Definition getArrayRegion_default
  : Pg.RectROI -> Np.array2 Z -> option (Np.array2 Z) -> option (Np.array2 Q) :=
  Pg.getArrayRegion Pg.col_major.

(** A 2x3 colour frame with distinct grey pixels. *)
Definition small_frame : Np.array2 bgr :=
  [[grey 1; grey 2; grey 3]; [grey 4; grey 5; grey 6]].

(** The window after the two cursors were put on pixels 100 and 300. *)
Definition cursors_100_300 : SpectrometerGUI :=
  set_l2 300%float (set_l1 100%float init).

(** The window with both cursors on pixel 150. *)
Definition cursors_150_150 : SpectrometerGUI :=
  set_l2 150%float (set_l1 150%float init).

(** The window with cursor 1 on pixel 300 and cursor 2 on the next float
    above 300. *)
Definition cursors_300_next : SpectrometerGUI :=
  set_l2 0x1.2c00000000001p+8%float (set_l1 300%float init).

(** The window with cursor 1 on pixel 0 and cursor 2 on the smallest
    positive float. *)
Definition cursors_0_tiny : SpectrometerGUI :=
  set_l2 0x1p-1074%float (set_l1 0%float init).

(** The attributes once the calibration of [cursors_100_300] is applied. *)
Definition calibrated_100_300 : SpectrometerGUI :=
  set_calib_set true
    (set_px_to_nm Lambda_slope_intercept
       (set_intercept (436 - (546 - 436) / (300 - 100) * 100)%float
          (set_slope ((546 - 436) / (300 - 100))%float cursors_100_300))).

(** Two attribute records that agree on everything but what is displayed:
    the image, the bottom label and the curve. *)
Definition same_but_display (a b : SpectrometerGUI) : Prop :=
  cam a = cam b /\ chk_flip_h a = chk_flip_h b /\ chk_flip_v a = chk_flip_v b /\
  roi a = roi b /\ l1 a = l1 b /\ l2 a = l2 b /\
  spin_l1 a = spin_l1 b /\ spin_l2 a = spin_l2 b /\
  calib_set a = calib_set b /\ slope a = slope b /\
  intercept a = intercept b /\ px_to_nm a = px_to_nm b.

(** Two attribute records that agree on everything but the calibration:
    flag, slope, intercept and mapping. *)
Definition same_but_calibration (a b : SpectrometerGUI) : Prop :=
  cam a = cam b /\ chk_flip_h a = chk_flip_h b /\ chk_flip_v a = chk_flip_v b /\
  roi a = roi b /\ img_view a = img_view b /\ spec_label a = spec_label b /\
  spec_curve a = spec_curve b /\ l1 a = l1 b /\ l2 a = l2 b /\
  spin_l1 a = spin_l1 b /\ spin_l2 a = spin_l2 b.

(** The calibration attributes of two records are the same. *)
Definition same_calibration (a b : SpectrometerGUI) : Prop :=
  calib_set a = calib_set b /\ slope a = slope b /\
  intercept a = intercept b /\ px_to_nm a = px_to_nm b.

(** Operator events other than timer ticks and the calibration button. *)
Definition operator_events : list (event bgr) :=
  [L1_moved bgr 5%float; SpinL1_changed bgr 700%float;
   Roi_changed bgr roi_flat;
   FlipH_stateChanged bgr true; L2_moved bgr 5%float; Timeout None;
   Slider_valueChanged bgr 3 7; Timeout (Some small_frame)].

(* ------------------------------------------------------------------ *)
(** ** The constructors, as a protocol of attribute definitions *)

(** [Webcam.__init__]: [isOpened] is what [self.cap.isOpened()] answers. *)
Definition Webcam_init (isOpened : bool) : result Webcam :=
  if isOpened then Returned {| flip_h := false; flip_v := false |}
  else Raised (RuntimeError "Impossibile aprire la webcam").

(** The object under construction is followed by the names of the
    attributes defined on it so far, the latest first; the widgets behind
    the names are the toolkit's.  Reading an attribute that is not defined
    raises AttributeError, as Python does. *)
Module Construct.

Definition attrs : Type := list string.

Definition setattr (name : string) : M attrs unit := modify (cons name).

Definition hasattr (self : attrs) (name : string) : bool :=
  existsb (String.eqb name) self.

Definition getattr (name : string) : M attrs unit :=
  fun self => if hasattr self name then (Returned tt, self)
              else (Raised (AttributeError name), self).

(** [add_slider(text, prop_id, rng, init)] inside [_build_controls]: it
    builds local widgets and connects a lambda; no attribute of the window
    is read or written when it runs. *)
Definition add_slider (text : string) : M attrs unit := ret tt.

(** [_build_controls], lines 99-133.  The fourth argument of each
    [add_slider] call is [int(self.cam.property(...))], evaluated before
    the call. *)
Definition _build_controls : M attrs unit :=
  setattr "chk_flip_h" ;; getattr "chk_flip_h" ;;
  setattr "chk_flip_v" ;; getattr "chk_flip_v" ;;
  getattr "chk_flip_h" ;;
  getattr "chk_flip_v" ;;
  getattr "cam" ;; add_slider "Exposure" ;;
  getattr "cam" ;; add_slider "Gain" ;;
  getattr "cam" ;; add_slider "Brightness" ;;
  getattr "cam" ;; add_slider "Contrast" ;;
  setattr "spin_l1" ;; getattr "spin_l1" ;; getattr "spin_l1" ;;
  setattr "spin_l2" ;; getattr "spin_l2" ;; getattr "spin_l2" ;;
  getattr "spin_l1" ;; getattr "spin_l2" ;;
  getattr "spin_l1" ;; getattr "spin_l2".

(** [SpectrometerGUI.__init__], lines 57-96: each line's attribute reads
    and writes, in order. *)
Definition SpectrometerGUI_init (isOpened : bool) : M attrs unit :=
  setattr "img_view" ;;
  getattr "img_view" ;; getattr "img_view" ;; getattr "img_view" ;;
  getattr "img_view" ;; getattr "img_view" ;;
  setattr "roi" ;;
  getattr "img_view" ;; getattr "roi" ;;
  setattr "spec_plot" ;;
  getattr "spec_plot" ;; setattr "spec_curve" ;;
  getattr "spec_plot" ;;
  setattr "l1" ;;
  setattr "l2" ;;
  getattr "spec_plot" ;; getattr "l1" ;;
  getattr "spec_plot" ;; getattr "l2" ;;
  setattr "calib_set" ;;
  _build_controls ;;
  match Webcam_init isOpened with
  | Returned _ => setattr "cam"
  | Raised e => raise e
  end ;;
  setattr "timer" ;; getattr "timer" ;; getattr "timer".

End Construct.

(* ------------------------------------------------------------------ *)
(** ** Further notions used by the properties of the slots *)

(** The camera's flip flags are the two checkboxes' states. *)
Definition flags_in_sync (self : SpectrometerGUI) : Prop :=
  flip_h (cam self) = chk_flip_h self /\ flip_v (cam self) = chk_flip_v self.

(** The curve holds as many x values as y values. *)
Definition curve_aligned (self : SpectrometerGUI) : Prop :=
  length (fst (spec_curve self)) = length (snd (spec_curve self)).

(** The region that covers a frame of [H] rows and [W] columns. *)
Definition full_frame (H W : nat) : Pg.RectROI :=
  {| Pg.pos := (0, 0)%Q;
     Pg.size := (inject_Z (Z.of_nat W), inject_Z (Z.of_nat H)) |}.

(** The gray frame as an array of floats: the region array when the region
    covers the whole frame. *)
Definition floats (gray : Np.array2 Z) : Np.array2 Q :=
  map (map inject_Z) gray.

(** A run of the operator: flips, a calibration, ticks with and without a
    frame, a region edit. *)
Definition session : list (event bgr) :=
  [FlipH_stateChanged bgr true; Timeout (Some ramp_bgr);
   L1_moved bgr 100%float;
   L2_moved bgr 300%float; Calib_clicked bgr; Roi_changed bgr roi_10x4;
   Timeout (Some ramp_bgr); Timeout None; FlipV_stateChanged bgr true;
   FlipH_stateChanged bgr false; Timeout (Some ramp_bgr)].

(* ================================================================== *)
(** * Properties *)

Ltac run_m :=
  unfold update_frame, axis_for, call_px_to_nm, getattr_slope,
    getattr_intercept, apply_calib, _set_flip, cam_read,
    bind, get, modify, ret, raise in *; simpl in *.

(* ------------------------------------------------------------------ *)
(** ** Calibration *)

(** What [apply_calib] does when the two cursors are on different pixels. *)
Lemma apply_calib_distinct (self : SpectrometerGUI) :
  PrimFloat.eqb (l1 self) (l2 self) = false ->
  apply_calib self =
    (Returned tt,
     set_calib_set true
       (set_px_to_nm Lambda_slope_intercept
          (set_intercept
             (spin_l1 self
              - (spin_l2 self - spin_l1 self) / (l2 self - l1 self) * l1 self)
             (set_slope
                ((spin_l2 self - spin_l1 self) / (l2 self - l1 self))
                self))))%float.
Proof.
  intro H. run_m. rewrite H. reflexivity.
Qed.

Lemma apply_calib_equal (self : SpectrometerGUI) :
  PrimFloat.eqb (l1 self) (l2 self) = true ->
  apply_calib self = (Returned tt, self).
Proof.
  intro H. run_m. rewrite H. reflexivity.
Qed.

(** C3. When the two cursor lines sit on exactly the same pixel position,
    [apply_calib] returns without writing any attribute: the attributes after
    the call are those before it, whether a calibration was installed before
    (Linear) or not (Unset), so the calibration model is the one before. *)
Theorem apply_calib_same_pixel_no_mutation (self : SpectrometerGUI) :
  PrimFloat.eqb (l1 self) (l2 self) = true ->
  apply_calib self = (Returned tt, self) /\
  model (snd (apply_calib self)) = model self.
Proof.
  intro H. rewrite (apply_calib_equal self H). split; reflexivity.
Qed.

Lemma apply_calib_same_pixel_no_mutation_witness :
  PrimFloat.eqb (l1 cursors_150_150) (l2 cursors_150_150) = true /\
  apply_calib cursors_150_150 = (Returned tt, cursors_150_150) /\
  model (snd (apply_calib cursors_150_150)) = Some Unset.
Proof.
  assert (H : PrimFloat.eqb (l1 cursors_150_150) (l2 cursors_150_150) = true)
    by reflexivity.
  split; [exact H | ].
  destruct (apply_calib_same_pixel_no_mutation cursors_150_150 H) as [E M0].
  split; [exact E | ]. rewrite M0. reflexivity.
Defined.

(** C2 (as amended).  When the two cursor lines sit on distinct pixel
    positions p1, p2 and the spin boxes hold the wavelengths w1, w2,
    [apply_calib] installs slope = (w2 - w1) / (p2 - p1) and intercept =
    w1 - slope * p1, each computed in binary64, and sets the calibrated
    flag; the installed mapping sends a pixel position px to
    slope * px + intercept.  With (100, 436) and (300, 546) the slope is the
    float 0.55, the intercept is 381, pixel 200 maps to 491 and the two
    reference pixels map to 436 and 546, all exactly. *)
Theorem apply_calib_two_point_fit (self : SpectrometerGUI) :
  PrimFloat.eqb (l1 self) (l2 self) = false ->
  exists self' s i,
    apply_calib self = (Returned tt, self') /\
    calib_set self' = true /\
    slope self' = Some s /\ intercept self' = Some i /\
    s = ((spin_l2 self - spin_l1 self) / (l2 self - l1 self))%float /\
    i = (spin_l1 self - s * l1 self)%float /\
    model self' = Some (Linear s i) /\
    (forall px, apply_to self' px = Some (s * px + i)%float) /\
    (l1 self = 100%float -> l2 self = 300%float ->
     spin_l1 self = 436%float -> spin_l2 self = 546%float ->
     s = 0x1.199999999999ap-1%float /\ i = 381%float /\
     apply_to self' 200 = Some 491%float /\
     apply_to self' (l1 self) = Some (spin_l1 self) /\
     apply_to self' (l2 self) = Some (spin_l2 self)).
Proof.
  intro H. rewrite (apply_calib_distinct self H).
  set (s := ((spin_l2 self - spin_l1 self) / (l2 self - l1 self))%float).
  set (i := (spin_l1 self - s * l1 self)%float).
  exists (set_calib_set true
            (set_px_to_nm Lambda_slope_intercept
               (set_intercept i (set_slope s self)))).
  exists s, i.
  repeat (split; [reflexivity | ]).
  intros E1 E2 E3 E4. unfold apply_to. simpl. unfold i, s.
  rewrite E1, E2, E3, E4. repeat split.
Qed.

Lemma apply_calib_two_point_fit_witness :
  exists self' s i,
    apply_calib cursors_100_300 = (Returned tt, self') /\
    slope self' = Some s /\ s = 0x1.199999999999ap-1%float /\
    intercept self' = Some i /\ i = 381%float /\
    apply_to self' 200 = Some 491%float /\
    apply_to self' 100 = Some 436%float /\
    apply_to self' 300 = Some 546%float.
Proof.
  assert (H : PrimFloat.eqb (l1 cursors_100_300) (l2 cursors_100_300) = false)
    by reflexivity.
  destruct (apply_calib_two_point_fit cursors_100_300 H)
    as (self' & s & i & E & _ & Es & Ei & _ & _ & _ & _ & Sc).
  destruct Sc as (Hs & Hi & A & B & C); try reflexivity.
  exists self', s, i. repeat split; assumption.
Defined.

(** C2, the part that fails: with cursor 1 on pixel 300 and cursor 2 on the
    next float above it the test [px1 == px2] is false and a calibration is
    installed, but its mapping sends the two cursors to 384 and 512 where
    the spin boxes hold 436 and 546; with the cursors on 0 and on the
    smallest positive float the slope is infinite and the mapping gives
    nan at both cursors. *)
Lemma close_cursors_miss_the_wavelengths :
  PrimFloat.eqb (l1 cursors_300_next) (l2 cursors_300_next) = false /\
  spin_l1 cursors_300_next = 436%float /\
  spin_l2 cursors_300_next = 546%float /\
  apply_to (snd (apply_calib cursors_300_next)) (l1 cursors_300_next)
    = Some 384%float /\
  apply_to (snd (apply_calib cursors_300_next)) (l2 cursors_300_next)
    = Some 512%float /\
  PrimFloat.eqb (l1 cursors_0_tiny) (l2 cursors_0_tiny) = false /\
  slope (snd (apply_calib cursors_0_tiny)) = Some infinity /\
  apply_to (snd (apply_calib cursors_0_tiny)) (l1 cursors_0_tiny)
    = Some nan /\
  apply_to (snd (apply_calib cursors_0_tiny)) (l2 cursors_0_tiny)
    = Some nan.
Proof. repeat split; vm_compute; reflexivity. Qed.

(* ------------------------------------------------------------------ *)
(** ** The tick and the event loop, for any pixel type and any routines *)

Section Properties.

Variable pixel : Type.
Variable BGR2GRAY : pixel -> Z.
Variable getArrayRegion :
  Pg.RectROI -> Np.array2 Z -> option (Np.array2 Z) -> option (Np.array2 Q).

Local Notation "'tick'" := (update_frame BGR2GRAY getArrayRegion).
Local Notation "'step_'" := (step BGR2GRAY getArrayRegion).
Local Notation "'run_'" := (run BGR2GRAY getArrayRegion).
Local Notation "'gray_of' frame" := (Cv2.cvtColor BGR2GRAY frame)
  (at level 10, frame at level 9).

Lemma same_but_display_refl (a : SpectrometerGUI) : same_but_display a a.
Proof. unfold same_but_display. repeat split. Qed.

Lemma same_but_display_trans (a b c : SpectrometerGUI) :
  same_but_display a b -> same_but_display b c -> same_but_display a c.
Proof.
  unfold same_but_display. intros Hab Hbc.
  repeat match goal with H : _ /\ _ |- _ => destruct H end.
  repeat split; congruence.
Qed.

(** The x axis: it returns or raises, and writes at most the label. *)
Lemma axis_for_cases (n : nat) (self : SpectrometerGUI) :
  (exists e, axis_for n self = (Raised e, self)) \/
  (exists x l, axis_for n self = (Returned x, set_spec_label l self)).
Proof.
  run_m. destruct (calib_set self).
  - destruct (px_to_nm self) as [[]|]; [ | left; eauto].
    destruct (slope self); [ | left; eauto].
    destruct (intercept self); [ | left; eauto].
    right. eauto.
  - right. eauto.
Qed.

(** [update_frame], one case per way through its body. *)
Lemma update_frame_eq cap (self : SpectrometerGUI) :
  tick cap self =
    match read (cam self) cap with
    | Raised e => (Raised e, self)
    | Returned frame =>
        let self1 := set_img_view (Np.T (gray_of frame)) self in
        match reduce getArrayRegion (roi self) (gray_of frame)
                (Some (Np.T (gray_of frame))) with
        | Empty => (Returned tt, self1)
        | Profile spec =>
            match axis_for (length spec) self1 with
            | (Returned x, self2) =>
                (Returned tt, set_spec_curve (x, spec) self2)
            | (Raised e, self2) => (Raised e, self2)
            end
        end
    end.
Proof.
  unfold update_frame, cam_read, bind, modify, get, ret.
  destruct (read (cam self) cap) as [frame|e]; simpl; [ | reflexivity].
  destruct (reduce getArrayRegion _ _ _); reflexivity.
Qed.

(** A tick writes nothing but the image, the label and the curve. *)
Lemma update_frame_display_only cap (self : SpectrometerGUI) :
  same_but_display (snd (tick cap self)) self.
Proof.
  rewrite update_frame_eq.
  destruct (read (cam self) cap) as [frame|e]; simpl;
    [ | apply same_but_display_refl].
  destruct (reduce getArrayRegion _ _ _) as [|spec];
    simpl; [unfold same_but_display; repeat split | ].
  destruct (axis_for_cases (length spec)
              (set_img_view (Np.T (gray_of frame)) self))
    as [[e E]|[x [l E]]];
    rewrite E; simpl; unfold same_but_display; repeat split.
Qed.

(** C5 (as amended).  On a tick on which the capture device delivers no
    frame, [Webcam.read] raises RuntimeError and [update_frame] lets it pass
    to its caller: the slot does not return normally.  No attribute is
    written before the raise, so the displayed image, the curve and the
    label are the previous ones. *)
Theorem update_frame_failed_read_raises (self : SpectrometerGUI) :
  tick None self = (Raised (RuntimeError "Frame non disponibile"), self) /\
  step_ self (Timeout None) = self.
Proof. split; reflexivity. Qed.

(** C9. On a tick whose frame is read but whose region reduces to nothing,
    [update_frame] returns after having set the displayed image to the new
    gray frame (transposed); the curve and the bottom label keep their
    previous values. *)
Theorem update_frame_empty_region_still_shows_frame
  cap frame (self : SpectrometerGUI) :
  read (cam self) cap = Returned frame ->
  reduce getArrayRegion (roi self) (Cv2.cvtColor BGR2GRAY frame)
         (Some (Np.T (Cv2.cvtColor BGR2GRAY frame))) = Empty ->
  tick cap self =
    (Returned tt, set_img_view (Np.T (Cv2.cvtColor BGR2GRAY frame)) self) /\
  img_view (snd (tick cap self))
    = Some (Np.T (Cv2.cvtColor BGR2GRAY frame)) /\
  spec_curve (snd (tick cap self)) = spec_curve self /\
  spec_label (snd (tick cap self)) = spec_label self.
Proof.
  intros R E.
  assert (T : tick cap self =
    (Returned tt, set_img_view (Np.T (Cv2.cvtColor BGR2GRAY frame)) self)).
  { rewrite update_frame_eq, R. simpl. rewrite E. reflexivity. }
  rewrite T. repeat split.
Qed.

(** C4. The x values handed to the curve for a profile of [n] samples.
    Without calibration they are the pixel indices 0, 1, ..., n-1 and the
    bottom label becomes the pixel one; with the calibration slope,
    intercept installed the i-th value is slope*i + intercept (in binary64)
    and the bottom label becomes the wavelength one.  [update_frame] plots
    exactly these values against the profile, under that label. *)
Theorem axis_for_matches_model (n : nat) (self : SpectrometerGUI) :
  (model self = Some Unset ->
   axis_for n self
     = (Returned (map (fun i => Px (Z.of_nat i)) (seq 0 n)),
        set_spec_label Pixel self) /\
   spec_label (snd (axis_for n self)) = Pixel) /\
  (forall s i, model self = Some (Linear s i) ->
   exists x,
     axis_for n self = (Returned x, set_spec_label Wavelength_nm self) /\
     spec_label (snd (axis_for n self)) = Wavelength_nm /\
     length x = n /\
     forall k, (k < n)%nat ->
       nth_error x k = Some (Nm (s * Np.float64 (Z.of_nat k) + i)%float)) /\
  (forall cap frame spec,
     read (cam self) cap = Returned frame ->
     reduce getArrayRegion (roi self) (Cv2.cvtColor BGR2GRAY frame)
       (Some (Np.T (Cv2.cvtColor BGR2GRAY frame))) = Profile spec ->
     (model self = Some Unset ->
      spec_curve (snd (tick cap self))
        = (map (fun i => Px (Z.of_nat i)) (seq 0 (length spec)), spec) /\
      spec_label (snd (tick cap self)) = Pixel) /\
     (forall s i, model self = Some (Linear s i) ->
      spec_curve (snd (tick cap self))
        = (map (fun k => Nm (s * Np.float64 (Z.of_nat k) + i)%float)
               (seq 0 (length spec)), spec) /\
      spec_label (snd (tick cap self)) = Wavelength_nm)).
Proof.
  assert (U : forall m (g : SpectrometerGUI), model g = Some Unset ->
            axis_for m g
            = (Returned (map (fun i => Px (Z.of_nat i)) (seq 0 m)),
               set_spec_label Pixel g)).
  { intros m g. unfold model. intro Hm. run_m.
    destruct (calib_set g).
    - destruct (px_to_nm g) as [[]|], (slope g), (intercept g);
        discriminate Hm.
    - unfold Np.arange. rewrite map_map. reflexivity. }
  assert (L : forall m (g : SpectrometerGUI) s i,
            model g = Some (Linear s i) ->
            axis_for m g
            = (Returned (map (fun k => Nm (s * Np.float64 (Z.of_nat k) + i)%float)
                             (seq 0 m)),
               set_spec_label Wavelength_nm g)).
  { intros m g s i. unfold model. intro Hm. run_m.
    destruct (calib_set g); [ | discriminate Hm].
    destruct (px_to_nm g) as [[]|]; [ | discriminate Hm].
    destruct (slope g) as [s'|]; [ | discriminate Hm].
    destruct (intercept g) as [i'|]; [ | discriminate Hm].
    injection Hm as -> ->.
    unfold Np.arange. rewrite !map_map. reflexivity. }
  split; [ | split].
  - intro Hm. rewrite (U n self Hm). split; reflexivity.
  - intros s i Hm. rewrite (L n self s i Hm).
    eexists. split; [reflexivity | ]. split; [reflexivity | ]. split.
    + now rewrite length_map, length_seq.
    + intros k Hk. rewrite nth_error_map.
      rewrite (nth_error_nth' (seq 0 n) 0%nat) by now rewrite length_seq.
      rewrite seq_nth by exact Hk. reflexivity.
  - intros cap frame spec R E. rewrite update_frame_eq, R. simpl. rewrite E.
    split.
    + intro Hm.
      rewrite (U (length spec)
                 (set_img_view (Np.T (Cv2.cvtColor BGR2GRAY frame)) self) Hm).
      split; reflexivity.
    + intros s i Hm.
      rewrite (L (length spec)
                 (set_img_view (Np.T (Cv2.cvtColor BGR2GRAY frame)) self)
                 s i Hm).
      split; reflexivity.
Qed.

(* ------------------------------------------------------------------ *)
(** ** The calibration flag over the events *)

(** With the flag set, the x axis is the wavelength one or the call raises. *)
Lemma axis_for_calibrated (n : nat) (self : SpectrometerGUI) :
  calib_set self = true ->
  (exists e, axis_for n self = (Raised e, self)) \/
  (exists x, axis_for n self = (Returned x, set_spec_label Wavelength_nm self)).
Proof.
  intro C. run_m. rewrite C.
  destruct (px_to_nm self) as [[]|]; [ | left; eauto].
  destruct (slope self); [ | left; eauto].
  destruct (intercept self); [ | left; eauto].
  right. eauto.
Qed.

Lemma update_frame_label_calibrated cap (self : SpectrometerGUI) :
  calib_set self = true ->
  spec_label (snd (tick cap self)) = spec_label self \/
  spec_label (snd (tick cap self)) = Wavelength_nm.
Proof.
  intro C. rewrite update_frame_eq.
  destruct (read (cam self) cap) as [frame|e]; simpl; [ | now left].
  destruct (reduce getArrayRegion _ _ _) as [|spec]; simpl; [now left | ].
  destruct (axis_for_calibrated (length spec)
              (set_img_view (Np.T (gray_of frame)) self) C)
    as [[e E]|[x E]]; rewrite E; simpl; [now left | now right].
Qed.

(** Every slot but the calibration button leaves the calibration alone. *)
Lemma step_same_calibration (self : SpectrometerGUI) (e : event pixel) :
  e <> Calib_clicked pixel -> same_calibration (step_ self e) self.
Proof.
  intro Ne. destruct e; try (unfold same_calibration; repeat split; fail).
  - unfold step, handle.
    destruct (update_frame_display_only cap self) as (_&_&_&_&_&_&_&_&A&B&C&D).
    unfold same_calibration. auto.
  - contradiction.
Qed.

(** The button sets the flag exactly when the cursors differ. *)
Lemma step_apply_calib_set (self : SpectrometerGUI) :
  calib_set (step_ self (Calib_clicked pixel))
  = if PrimFloat.eqb (l1 self) (l2 self) then calib_set self else true.
Proof.
  unfold step, handle. destruct (PrimFloat.eqb (l1 self) (l2 self)) eqn:E.
  - now rewrite apply_calib_equal.
  - now rewrite apply_calib_distinct.
Qed.

Lemma event_calib_or_not (e : event pixel) :
  e = Calib_clicked pixel \/ e <> Calib_clicked pixel.
Proof. destruct e; (now left) || (right; discriminate). Qed.

Lemma step_keeps_calib_set (self : SpectrometerGUI) (e : event pixel) :
  calib_set self = true -> calib_set (step_ self e) = true.
Proof.
  intro C. destruct (event_calib_or_not e) as [-> | Ne].
  - rewrite step_apply_calib_set, C. now destruct (PrimFloat.eqb _ _).
  - destruct (step_same_calibration self Ne) as [A _]. now rewrite A.
Qed.

Lemma step_keeps_wavelength_label (self : SpectrometerGUI) (e : event pixel) :
  calib_set self = true -> spec_label self = Wavelength_nm ->
  spec_label (step_ self e) = Wavelength_nm.
Proof.
  intros C L. destruct e; try exact L.
  - unfold step, handle.
    destruct (update_frame_label_calibrated cap self C) as [E|E];
      rewrite E; trivial.
  - unfold step, handle. destruct (PrimFloat.eqb (l1 self) (l2 self)) eqn:E.
    + now rewrite apply_calib_equal.
    + now rewrite apply_calib_distinct.
Qed.

(** C8. The window starts uncalibrated.  One event takes the flag from unset
    to set only if it is the calibration button pressed with the two cursors
    on distinct pixels.  Once set, the flag stays set over every sequence of
    ticks, flip toggles, region edits, cursor moves, spin-box edits, slider
    moves and further presses of the button; from then on no event writes
    the pixel label, and a wavelength label, once shown, stays. *)
Theorem calibration_one_way :
  calib_set init = false /\
  (forall self e,
     calib_set self = false -> calib_set (step_ self e) = true ->
     e = Calib_clicked pixel /\
     PrimFloat.eqb (l1 self) (l2 self) = false) /\
  (forall self es,
     calib_set self = true -> calib_set (run_ self es) = true) /\
  (forall self e,
     calib_set self = true ->
     spec_label (step_ self e) = spec_label self \/
     spec_label (step_ self e) = Wavelength_nm) /\
  (forall self es,
     calib_set self = true -> spec_label self = Wavelength_nm ->
     spec_label (run_ self es) = Wavelength_nm).
Proof.
  split; [reflexivity | split; [ | split; [ | split]]].
  - intros self e C0 C1.
    assert (E : e = Calib_clicked pixel).
    { destruct (event_calib_or_not e) as [E | Ne]; [exact E | ].
      destruct (step_same_calibration self Ne) as [A _]. congruence. }
    split; [exact E | ]. subst e.
    rewrite step_apply_calib_set in C1.
    destruct (PrimFloat.eqb (l1 self) (l2 self)) eqn:Q; [congruence | ].
    reflexivity.
  - intros self es. revert self. induction es as [|e es IH]; intros self C.
    + exact C.
    + simpl. apply IH. now apply step_keeps_calib_set.
  - intros self e C. destruct e; try (now left).
    + now apply update_frame_label_calibrated.
    + left. unfold step, handle.
      destruct (PrimFloat.eqb (l1 self) (l2 self)) eqn:E.
      * now rewrite apply_calib_equal.
      * now rewrite apply_calib_distinct.
  - intros self es. revert self.
    induction es as [|e es IH]; intros self C L.
    + exact L.
    + simpl. apply IH.
      * now apply step_keeps_calib_set.
      * now apply step_keeps_wavelength_label.
Qed.

(** C10. [apply_calib] writes nothing but the calibration attributes (flag,
    slope, intercept, mapping): the region, the flip flags, the cursors, the
    spin boxes and what is displayed are as before.  Every other slot leaves
    the calibration attributes alone, so cursor moves and spin-box edits
    after a press change the installed mapping only at the next press. *)
Theorem apply_calib_frame_condition :
  (forall self, fst (apply_calib self) = Returned tt /\
                same_but_calibration (snd (apply_calib self)) self) /\
  (forall self es px,
     Forall (fun e => e <> Calib_clicked pixel) es ->
     same_calibration (run_ self es) self /\
     apply_to (run_ self es) px = apply_to self px).
Proof.
  split.
  - intro self. destruct (PrimFloat.eqb (l1 self) (l2 self)) eqn:E.
    + rewrite apply_calib_equal by exact E.
      unfold same_but_calibration. repeat split.
    + rewrite apply_calib_distinct by exact E.
      unfold same_but_calibration. repeat split.
  - intros self es px F.
    assert (S : same_calibration (run_ self es) self).
    { revert self. induction F as [|e es Ne F IH]; intro self.
      - unfold same_calibration. repeat split.
      - simpl. destruct (IH (step_ self e)) as (A&B&C&D).
        destruct (step_same_calibration self Ne) as (A'&B'&C'&D').
        unfold same_calibration. repeat split; congruence. }
    split; [exact S | ].
    destruct S as (_&B&C&D). unfold apply_to. now rewrite B, C, D.
Qed.

End Properties.

(* ------------------------------------------------------------------ *)
(** ** Flips *)

Section Flips.

Variable A : Type.

Lemma map_rev_involutive (frame : Np.array2 A) :
  map (@rev A) (map (@rev A) frame) = frame.
Proof.
  rewrite map_map. rewrite <- (map_id frame) at 2.
  apply map_ext. intro row. apply rev_involutive.
Qed.

(** The sample of the turned image at row [r], column [c]. *)
Lemma pixel_at_rot180 (frame : Np.array2 A) (H W r c : nat) :
  rectangular frame H W -> (r < H)%nat -> (c < W)%nat ->
  pixel_at (rot180 frame) r c = pixel_at frame (H - 1 - r) (W - 1 - c).
Proof.
  intros [HL HW] Hr Hc. unfold pixel_at, rot180.
  rewrite nth_error_rev, length_map, HL.
  destruct (Nat.ltb_spec r H) as [_|]; [ | lia].
  rewrite nth_error_map.
  replace (H - S r)%nat with (H - 1 - r)%nat by lia.
  destruct (nth_error frame (H - 1 - r)) as [row|] eqn:E; simpl.
  - assert (L : length row = W).
    { rewrite Forall_forall in HW. apply HW.
      eapply nth_error_In. exact E. }
    rewrite nth_error_rev, L.
    destruct (Nat.ltb_spec c W) as [_|]; [ | lia].
    f_equal. lia.
  - apply nth_error_None in E. lia.
Qed.

(** C7. Flipping horizontally twice gives the frame back.  [Webcam.read]
    applies the horizontal flip first and the vertical flip second; with both
    flags set the frame it returns is the raw frame turned by 180 degrees
    (the sample at row r, column c is the raw one at row H-1-r, column
    W-1-c), and flipping vertically first and horizontally second gives the
    same frame. *)
Theorem flip_composition (frame : Np.array2 A) :
  Cv2.flip (Cv2.flip frame 1) 1 = frame /\
  read {| flip_h := true; flip_v := false |} (Some frame)
    = Returned (Cv2.flip frame 1) /\
  read {| flip_h := false; flip_v := true |} (Some frame)
    = Returned (Cv2.flip frame 0) /\
  read {| flip_h := true; flip_v := true |} (Some frame)
    = Returned (Cv2.flip (Cv2.flip frame 1) 0) /\
  Cv2.flip (Cv2.flip frame 1) 0 = rot180 frame /\
  Cv2.flip (Cv2.flip frame 0) 1 = rot180 frame /\
  (forall H W r c,
     rectangular frame H W -> (r < H)%nat -> (c < W)%nat ->
     pixel_at (Cv2.flip (Cv2.flip frame 1) 0) r c
     = pixel_at frame (H - 1 - r) (W - 1 - c)).
Proof.
  unfold Cv2.flip, read, rot180; simpl.
  repeat split; trivial.
  - apply map_rev_involutive.
  - apply map_rev.
  - intros H W r c R Hr Hc. now apply pixel_at_rot180.
Qed.

End Flips.

Lemma flip_composition_witness :
  rectangular small_frame 2 3 /\
  read {| flip_h := true; flip_v := true |} (Some small_frame)
    = Returned [[grey 6; grey 5; grey 4]; [grey 3; grey 2; grey 1]] /\
  pixel_at (Cv2.flip (Cv2.flip small_frame 1) 0) 0 1
    = pixel_at small_frame (2 - 1 - 0) (3 - 1 - 1).
Proof.
  assert (R : rectangular small_frame 2 3).
  { split; [reflexivity | repeat constructor]. }
  destruct (flip_composition small_frame) as (_ & _ & _ & B & _ & _ & I).
  split; [exact R | split; [exact B | ]].
  apply (I 2%nat 3%nat 0%nat 1%nat R); lia.
Defined.

(* ------------------------------------------------------------------ *)
(** ** Rounding and ceilings *)



Lemma inject_Z_succ (z : Z) : inject_Z (z + 1) == inject_Z z + 1.
Proof. rewrite inject_Z_plus. reflexivity. Qed.




(* ------------------------------------------------------------------ *)
(** ** The mean along axis 0, column by column *)


Lemma length_add (a b : list Q) :
  length (Np.add a b) = Nat.min (length a) (length b).
Proof.
  revert b. induction a as [|x a IH]; intros [|y b]; simpl; auto.
Qed.

Lemma nth_add (a b : list Q) (k : nat) :
  (k < length a)%nat -> (k < length b)%nat ->
  nth k (Np.add a b) 0 = nth k a 0 + nth k b 0.
Proof.
  revert b k. induction a as [|x a IH]; intros [|y b] [|k]; simpl;
    intros; try lia; trivial.
  apply IH; lia.
Qed.

Lemma fold_add_spec (n k : nat) (rs : list (list Q)) (r : list Q) :
  length r = n -> Forall (fun row => length row = n) rs -> (k < n)%nat ->
  length (fold_left Np.add rs r) = n /\
  nth k (fold_left Np.add rs r) 0
    == nth k r 0 + Qsum (map (fun row => nth k row 0) rs).
Proof.
  intros Lr F Hk. revert r Lr.
  induction F as [|row rs Lrow F IH]; intros r Lr; simpl.
  - split; [exact Lr | ring].
  - destruct (IH (Np.add r row)) as [L N].
    { rewrite length_add, Lr, Lrow. apply Nat.min_id. }
    split; [exact L | ].
    rewrite N, nth_add by lia. ring.
Qed.

(** Sample [k] of the mean along axis 0 is the sum of column [k] over the
    number of rows. *)
Lemma mean_axis0_spec (n k : nat) (a : Np.array2 Q) :
  a <> [] -> Forall (fun row => length row = n) a -> (k < n)%nat ->
  length (Np.mean_axis0 a) = n /\
  nth k (Np.mean_axis0 a) 0
    == Qsum (map (fun row => nth k row 0) a) / inject_Z (Z.of_nat (length a)).
Proof.
  intros Ne F Hk. destruct a as [|r rs]; [congruence | ].
  apply Forall_cons_iff in F. destruct F as [Lr F'].
  destruct (@fold_add_spec n k rs r Lr F' Hk) as [L N].
  unfold Np.mean_axis0. rewrite length_map. simpl Np.sum_axis0.
  split; [exact L | ].
  set (f := fun s => s / inject_Z (Z.of_nat (length (r :: rs)))).
  rewrite (nth_indep _ 0 (f 0)) by (rewrite length_map; lia).
  rewrite map_nth. unfold f. rewrite N. reflexivity.
Qed.





(* ------------------------------------------------------------------ *)
(** ** The ROI reducer *)
















(** The scenario, evaluated in rows-first order: the profile of
    [ramp_frame] over (0,0,10,4). *)
Example reduce_ramp_evaluated :
  match reduce (Pg.getArrayRegion Pg.row_major) roi_10x4 ramp_frame None with
  | Profile spec => map Qred spec
  | Empty => []
  end = [0; 10; 20; 30; 40; 50; 60; 70; 80; 90].
Proof. vm_compute. reflexivity. Qed.





(* ------------------------------------------------------------------ *)
(** ** The scenarios on concrete windows *)

(** C5, the part that fails: with no frame delivered the slot does not
    return; it ends by raising RuntimeError to the event loop. *)
Lemma failed_read_is_raised :
  update_frame luma getArrayRegion_default None init
    = (Raised (RuntimeError "Frame non disponibile"), init) /\
  fst (update_frame luma getArrayRegion_default None init) <> Returned tt.
Proof. split; [reflexivity | discriminate]. Qed.

Lemma update_frame_empty_region_still_shows_frame_witness :
  img_view (snd (update_frame luma getArrayRegion_default (Some small_frame)
                   (set_roi roi_flat init)))
    = Some [[1; 4]; [2; 5]; [3; 6]]%Z /\
  spec_curve (snd (update_frame luma getArrayRegion_default (Some small_frame)
                     (set_roi roi_flat init)))
    = spec_curve init.
Proof.
  assert (R : read (cam (set_roi roi_flat init)) (Some small_frame)
              = Returned small_frame) by reflexivity.
  assert (E : reduce getArrayRegion_default (roi (set_roi roi_flat init))
                (Cv2.cvtColor luma small_frame)
                (Some (Np.T (Cv2.cvtColor luma small_frame))) = Empty)
    by reflexivity.
  destruct (@update_frame_empty_region_still_shows_frame bgr luma
              getArrayRegion_default (Some small_frame) small_frame
              (set_roi roi_flat init) R E) as (_ & I & C & _).
  split; [exact I | exact C].
Defined.

Lemma axis_for_matches_model_witness :
  axis_for 3 init
    = (Returned [Px 0; Px 1; Px 2], set_spec_label Pixel init) /\
  spec_label (snd (axis_for 3 init)) = Pixel /\
  exists x,
    axis_for 3 calibrated_100_300
      = (Returned x, set_spec_label Wavelength_nm calibrated_100_300) /\
    spec_label (snd (axis_for 3 calibrated_100_300)) = Wavelength_nm /\
    nth_error x 2 = Some (Nm (0x1.199999999999ap-1 * 2 + 381)%float).
Proof.
  destruct (@axis_for_matches_model bgr luma getArrayRegion_default 3
              init) as (U & _ & _).
  destruct (@axis_for_matches_model bgr luma getArrayRegion_default 3
              calibrated_100_300) as (_ & L & _).
  destruct (U eq_refl) as (U1 & U2).
  split; [exact U1 | ]. split; [exact U2 | ].
  destruct (L 0x1.199999999999ap-1%float 381%float eq_refl)
    as (x & E & Lb & _ & N).
  exists x. split; [exact E | ]. split; [exact Lb | ]. apply N. lia.
Defined.

Lemma calibration_one_way_witness :
  calib_set calibrated_100_300 = true /\
  calib_set (run luma getArrayRegion_default calibrated_100_300
               (operator_events ++ [Calib_clicked bgr])) = true /\
  calib_set (step luma getArrayRegion_default cursors_150_150
               (Calib_clicked bgr))
    = false.
Proof.
  destruct (@calibration_one_way bgr luma getArrayRegion_default)
    as (_ & _ & K & _ & _).
  split; [reflexivity | ].
  split; [apply K; reflexivity | reflexivity].
Defined.

Lemma apply_calib_frame_condition_witness :
  Forall (fun e => e <> Calib_clicked bgr) operator_events /\
  apply_to (run luma getArrayRegion_default calibrated_100_300 operator_events)
    200%float
    = apply_to calibrated_100_300 200%float /\
  roi (snd (apply_calib cursors_100_300)) = roi cursors_100_300.
Proof.
  assert (F : Forall (fun e => e <> Calib_clicked bgr) operator_events).
  { unfold operator_events. repeat constructor; discriminate. }
  destruct (@apply_calib_frame_condition bgr luma getArrayRegion_default)
    as (A & B).
  split; [exact F | ]. split.
  - exact (proj2 (B calibrated_100_300 operator_events 200%float F)).
  - destruct (A cursors_100_300) as (_ & _ & _ & _ & Hroi & _). exact Hroi.
Defined.

(* ------------------------------------------------------------------ *)
(** ** The attributes stay consistent *)

(** Whenever the flag is set, slope, intercept and mapping are defined, so
    the call of [self.px_to_nm] inside a tick never raises: this holds at
    start and after every sequence of events. *)
Lemma model_defined_reachable (pixel : Type) (BGR2GRAY : pixel -> Z)
  (getArrayRegion :
     Pg.RectROI -> Np.array2 Z -> option (Np.array2 Z) -> option (Np.array2 Q))
  (es : list (event pixel)) :
  model (run BGR2GRAY getArrayRegion init es) <> None.
Proof.
  assert (I : model init <> None) by discriminate.
  revert I. generalize init as self. induction es as [|e es IH]; intros self I.
  - exact I.
  - simpl. apply IH.
    destruct (event_calib_or_not e) as [-> | Ne].
    + unfold step, handle. destruct (PrimFloat.eqb (l1 self) (l2 self)) eqn:E.
      * now rewrite apply_calib_equal.
      * rewrite apply_calib_distinct by exact E.
        discriminate.
    + destruct (step_same_calibration BGR2GRAY getArrayRegion self Ne)
        as (A & B & C & D).
      unfold model in *. now rewrite A, B, C, D.
Qed.

(* ================================================================== *)
(** * Further properties of the slots *)

Section Slots.

Variable pixel : Type.
Variable BGR2GRAY : pixel -> Z.
Variable getArrayRegion :
  Pg.RectROI -> Np.array2 Z -> option (Np.array2 Z) -> option (Np.array2 Q).

Local Notation "'tick'" := (update_frame BGR2GRAY getArrayRegion).
Local Notation "'handle_'" := (handle BGR2GRAY getArrayRegion).
Local Notation "'step_'" := (step BGR2GRAY getArrayRegion).
Local Notation "'run_'" := (run BGR2GRAY getArrayRegion).

(** The x axis, when it returns, has [n] values and writes only the label. *)
Lemma axis_for_returned (n : nat) (self self' : SpectrometerGUI) x :
  axis_for n self = (Returned x, self') ->
  length x = n /\ exists l, self' = set_spec_label l self.
Proof.
  run_m. unfold Np.arange. destruct (calib_set self).
  - destruct (px_to_nm self) as [[]|]; [ | discriminate].
    destruct (slope self); [ | discriminate].
    destruct (intercept self); [ | discriminate].
    intro E. injection E as <- <-.
    rewrite !length_map, length_seq. eauto.
  - intro E. injection E as <- <-.
    rewrite !length_map, length_seq. eauto.
Qed.

(** With slope, intercept and mapping defined whenever the flag is set, the
    x axis returns. *)
Lemma axis_for_returns (n : nat) (self : SpectrometerGUI) :
  model self <> None ->
  exists x l, axis_for n self = (Returned x, set_spec_label l self).
Proof.
  unfold model. intro Hm. run_m. destruct (calib_set self); [ | eauto].
  destruct (px_to_nm self) as [[]|]; [ | congruence].
  destruct (slope self); [ | congruence].
  destruct (intercept self); [ | congruence]. eauto.
Qed.

(** X1. In every state the window can reach from its start, every slot
    returns normally, except the tick on which the capture device delivers
    no frame, which raises RuntimeError: no slot ever reads a calibration
    attribute that was not set. *)
Theorem only_failed_read_raises (es : list (event pixel)) (e : event pixel) :
  (e <> Timeout None ->
   fst (handle_ e (run_ init es)) = Returned tt) /\
  (e = Timeout None ->
   fst (handle_ e (run_ init es))
   = Raised (RuntimeError "Frame non disponibile")).
Proof.
  pose proof (model_defined_reachable BGR2GRAY getArrayRegion es) as Hm.
  set (self := run_ init es) in *.
  split.
  - intro Ne. destruct e as [cap| | | | | | | | | ]; try reflexivity.
    + destruct cap as [frame|]; [ | congruence].
      unfold handle. rewrite update_frame_eq. simpl.
      destruct (reduce getArrayRegion _ _ _) as [|spec]; [reflexivity | ].
      match goal with
      | |- context [axis_for ?n ?s] =>
          destruct (@axis_for_returns n s Hm) as (x & l & E)
      end.
      rewrite E. reflexivity.
    + unfold handle. destruct (PrimFloat.eqb (l1 self) (l2 self)) eqn:E.
      * now rewrite apply_calib_equal.
      * now rewrite apply_calib_distinct.
  - intros ->. reflexivity.
Qed.

Lemma step_keeps_curve_aligned (self : SpectrometerGUI) (e : event pixel) :
  curve_aligned self -> curve_aligned (step_ self e).
Proof.
  intro A. destruct e as [cap| | | | | | | | | ]; try exact A.
  - unfold step, handle. rewrite update_frame_eq.
    destruct (read (cam self) cap) as [frame|err]; [ | exact A].
    simpl. destruct (reduce getArrayRegion _ _ _) as [|spec]; [exact A | ].
    match goal with
    | |- context [axis_for ?n ?s] =>
        destruct (axis_for n s) as [[x|err] self2] eqn:E
    end.
    + apply axis_for_returned in E. destruct E as [L _].
      unfold curve_aligned. simpl. exact L.
    + destruct (axis_for_cases (length spec)
                  (set_img_view (Np.T (Cv2.cvtColor BGR2GRAY frame)) self))
        as [[e' E']|[x [l E']]]; rewrite E' in E; [ | discriminate].
      injection E as _ <-. exact A.
  - unfold step, handle. destruct (PrimFloat.eqb (l1 self) (l2 self)) eqn:E.
    + now rewrite apply_calib_equal.
    + now rewrite apply_calib_distinct.
Qed.

(** X2. Whatever the events, the curve always holds as many x values as
    intensity samples: a redraw stores an axis of exactly the profile's
    length, with or without calibration, and nothing else writes the curve. *)
Theorem curve_always_aligned (es : list (event pixel)) :
  curve_aligned (run_ init es) /\
  (forall self e, curve_aligned self -> curve_aligned (step_ self e)).
Proof.
  split; [ | exact step_keeps_curve_aligned].
  assert (I : curve_aligned init) by reflexivity.
  revert I. generalize init as self.
  induction es as [|e es IH]; intros self I; [exact I | ].
  simpl. apply IH. now apply step_keeps_curve_aligned.
Qed.

Lemma step_keeps_flags_in_sync (self : SpectrometerGUI) (e : event pixel) :
  flags_in_sync self -> flags_in_sync (step_ self e).
Proof.
  intros [A B]. destruct e as [cap| | | | | | | | | ];
    try (split; [exact A | exact B]); try (split; reflexivity).
  - unfold step, handle.
    destruct (update_frame_display_only BGR2GRAY getArrayRegion cap self)
      as (C & D & E & _).
    unfold flags_in_sync. now rewrite C, D, E.
  - unfold step, handle. destruct (PrimFloat.eqb (l1 self) (l2 self)) eqn:E.
    + rewrite apply_calib_equal by exact E.
      split; [exact A | exact B].
    + rewrite apply_calib_distinct by exact E.
      split; [exact A | exact B].
Qed.

(** X3. Whatever the events, the camera's two flip flags equal the states
    of the two checkboxes; a change of either checkbox brings both flags in
    line even from a state where they were not.  So the frame a tick works
    on is flipped exactly as the checkboxes say. *)
Theorem flip_flags_follow_checkboxes (es : list (event pixel)) :
  flags_in_sync (run_ init es) /\
  (forall self b, flags_in_sync (step_ self (FlipH_stateChanged pixel b)) /\
                  chk_flip_h (step_ self (FlipH_stateChanged pixel b)) = b) /\
  (forall self b, flags_in_sync (step_ self (FlipV_stateChanged pixel b)) /\
                  chk_flip_v (step_ self (FlipV_stateChanged pixel b)) = b) /\
  (forall frame : Np.array2 pixel,
     read (cam (run_ init es)) (Some frame)
     = Returned
         (let f := if chk_flip_h (run_ init es)
                   then Cv2.flip frame 1 else frame in
          if chk_flip_v (run_ init es) then Cv2.flip f 0 else f)).
Proof.
  assert (S : flags_in_sync (run_ init es)).
  { assert (I : flags_in_sync init) by (split; reflexivity).
    revert I. generalize init as self.
    induction es as [|e es IH]; intros self I; [exact I | ].
    simpl. apply IH. now apply step_keeps_flags_in_sync. }
  split; [exact S | ].
  split; [intros self b; repeat split | ].
  split; [intros self b; repeat split | ].
  intro frame. destruct S as [A B]. unfold read. now rewrite A, B.
Qed.

(** The x axis reads the calibration attributes only. *)
Lemma axis_for_same_calibration (n : nat) (a b : SpectrometerGUI) :
  same_calibration a b ->
  (forall e, axis_for n a = (Raised e, a) -> axis_for n b = (Raised e, b)) /\
  (forall x l, axis_for n a = (Returned x, set_spec_label l a) ->
               axis_for n b = (Returned x, set_spec_label l b)).
Proof.
  unfold same_calibration.
  destruct a as [? ? ? ? ? ? ? ? ? ? ? fa sa ia pa],
           b as [? ? ? ? ? ? ? ? ? ? ? fb sb ib pb].
  simpl. intros (-> & -> & -> & ->).
  unfold axis_for, call_px_to_nm, getattr_slope, getattr_intercept,
    bind, get, modify, ret. simpl.
  destruct fb.
  - destruct pb as [[]|]; [ | split; [ | discriminate];
                              intros e E; now injection E as <-].
    destruct sb; [ | split; [ | discriminate];
                     intros e E; now injection E as <-].
    destruct ib; [ | split; [ | discriminate];
                     intros e E; now injection E as <-].
    split; [discriminate | ]. intros x l E.
    injection E as <- E2. now subst l.
  - split; [discriminate | ]. intros x l E.
    injection E as <- E2. now subst l.
Qed.

(** X4. A tick repeated with the same delivery of the capture device
    changes nothing more: what is displayed after a tick depends on the
    frame, the region, the flips and the calibration only, and nothing of
    an earlier frame is accumulated. *)
Theorem update_frame_idempotent cap (self : SpectrometerGUI) :
  tick cap (snd (tick cap self)) = tick cap self.
Proof.
  pose proof (update_frame_eq BGR2GRAY getArrayRegion cap self) as E1.
  pose proof (update_frame_eq BGR2GRAY getArrayRegion cap
                (snd (tick cap self))) as E2.
  destruct (read (cam self) cap) as [frame|err] eqn:R.
  2:{ rewrite E1 in *. simpl snd in E2. rewrite R in E2. exact E2. }
  cbv zeta in E1, E2.
  set (img := Np.T (Cv2.cvtColor BGR2GRAY frame)) in *.
  destruct (reduce getArrayRegion (roi self) _ (Some img)) as [|spec] eqn:Red.
  - rewrite E1 in *. simpl snd in E2.
    change (cam (set_img_view img self)) with (cam self) in E2.
    rewrite R in E2. fold img in E2.
    change (roi (set_img_view img self)) with (roi self) in E2.
    rewrite Red in E2. exact E2.
  - destruct (axis_for_cases (length spec) (set_img_view img self))
      as [[e' E']|[x [l E']]]; rewrite E' in E1; rewrite E1 in *;
      simpl snd in E2.
    + change (cam (set_img_view img self)) with (cam self) in E2.
      rewrite R in E2. fold img in E2.
      change (roi (set_img_view img self)) with (roi self) in E2.
      rewrite Red in E2.
      change (set_img_view img (set_img_view img self))
        with (set_img_view img self) in E2.
      rewrite E' in E2. exact E2.
    + set (s' := set_spec_curve (x, spec)
                   (set_spec_label l (set_img_view img self))) in *.
      change (cam s') with (cam self) in E2.
      rewrite R in E2. fold img in E2.
      change (roi s') with (roi self) in E2.
      rewrite Red in E2.
      assert (S : same_calibration (set_img_view img self)
                    (set_img_view img s')) by (repeat split).
      destruct (axis_for_same_calibration (length spec) S) as [_ K].
      rewrite (K x l E') in E2. exact E2.
Qed.

(** Row [c] of the transpose of a rectangular array, sample by sample. *)
Lemma nth_error_column (A : Type) (a : Np.array2 A) (W c r : nat) :
  Forall (fun row => length row = W) a -> (c < W)%nat ->
  nth_error (Np.column c a) r
  = match nth_error a r with
    | Some row => nth_error row c
    | None => None
    end.
Proof.
  intros F Hc. revert r. induction F as [|row a L F IH]; intro r.
  - now destruct r.
  - unfold Np.column. simpl flat_map. fold (Np.column c a).
    destruct (nth_error row c) as [v|] eqn:E.
    + destruct r as [|r]; simpl; [now rewrite E | apply IH].
    + apply nth_error_None in E. lia.
Qed.

Lemma pixel_at_T (A : Type) (a : Np.array2 A) (H W r c : nat) :
  rectangular a H W -> (r < H)%nat -> (c < W)%nat ->
  pixel_at (Np.T a) c r = pixel_at a r c.
Proof.
  intros [HL HW] Hr Hc. unfold pixel_at, Np.T.
  assert (S : snd (Np.shape a) = W).
  { destruct a as [|row a]; [simpl in HL; lia | ].
    apply Forall_cons_iff in HW. now destruct HW. }
  rewrite S, nth_error_map, nth_error_seq.
  destruct (Nat.ltb_spec c W) as [_|]; [ | lia]. simpl.
  now apply nth_error_column with (W := W).
Qed.

Lemma pixel_at_cvtColor (frame : Np.array2 pixel) (r c : nat) :
  pixel_at (Cv2.cvtColor BGR2GRAY frame) r c
  = option_map BGR2GRAY (pixel_at frame r c).
Proof.
  unfold pixel_at, Cv2.cvtColor. rewrite nth_error_map.
  destruct (nth_error frame r) as [row|]; simpl; [ | reflexivity].
  apply nth_error_map.
Qed.

Lemma rectangular_cvtColor (frame : Np.array2 pixel) (H W : nat) :
  rectangular frame H W -> rectangular (Cv2.cvtColor BGR2GRAY frame) H W.
Proof.
  intros [HL HW]. unfold Cv2.cvtColor. split.
  - now rewrite length_map.
  - apply Forall_map. eapply Forall_impl; [ | exact HW].
    intros row L. now rewrite length_map.
Qed.

(** After a tick whose read succeeded the image shown is the transposed
    gray frame, whatever became of the curve. *)
Lemma update_frame_img_view cap frame (self : SpectrometerGUI) :
  read (cam self) cap = Returned frame ->
  img_view (snd (tick cap self))
  = Some (Np.T (Cv2.cvtColor BGR2GRAY frame)).
Proof.
  intro R. rewrite update_frame_eq, R. simpl.
  destruct (reduce getArrayRegion _ _ _) as [|spec]; [reflexivity | ].
  destruct (axis_for_cases (length spec)
              (set_img_view (Np.T (Cv2.cvtColor BGR2GRAY frame)) self))
    as [[e E]|[x [l E]]]; rewrite E; reflexivity.
Qed.

(** X5. After every tick whose read succeeded, whether the curve was
    redrawn, skipped for an empty region or not, the image on display is
    the gray frame transposed: its sample at row c, column r is the
    luminance of the frame's pixel at row r, column c. *)
Theorem displayed_image_is_transposed_gray
  cap frame (self : SpectrometerGUI) (H W r c : nat) :
  read (cam self) cap = Returned frame ->
  rectangular frame H W -> (r < H)%nat -> (c < W)%nat ->
  exists img,
    img_view (snd (tick cap self)) = Some img /\
    pixel_at img c r = option_map BGR2GRAY (pixel_at frame r c).
Proof.
  intros R Rect Hr Hc.
  exists (Np.T (Cv2.cvtColor BGR2GRAY frame)).
  split; [now apply update_frame_img_view | ].
  rewrite (pixel_at_T (rectangular_cvtColor Rect) Hr Hc).
  apply pixel_at_cvtColor.
Qed.

End Slots.

(* ------------------------------------------------------------------ *)
(** ** Further properties of the calibration *)

(** X6. Pressing the calibration button twice in a row does what pressing
    it once does, and the calibration it installs is decided by the two
    cursors and the two spin boxes alone: whatever calibration was there
    before is overwritten without trace. *)
Theorem apply_calib_overwrites :
  (forall self, apply_calib (snd (apply_calib self)) = apply_calib self) /\
  (forall a b,
     l1 a = l1 b -> l2 a = l2 b ->
     spin_l1 a = spin_l1 b -> spin_l2 a = spin_l2 b ->
     PrimFloat.eqb (l1 a) (l2 a) = false ->
     same_calibration (snd (apply_calib a)) (snd (apply_calib b))).
Proof.
  split.
  - intro self. destruct (PrimFloat.eqb (l1 self) (l2 self)) eqn:E.
    + rewrite (apply_calib_equal self E). simpl.
      now apply apply_calib_equal.
    + rewrite (apply_calib_distinct self E).
      simpl snd. now rewrite apply_calib_distinct.
  - intros a b E1 E2 E3 E4 D.
    assert (D' : PrimFloat.eqb (l1 b) (l2 b) = false)
      by now rewrite <- E1, <- E2.
    rewrite (apply_calib_distinct a D), (apply_calib_distinct b D').
    unfold same_calibration. simpl. now rewrite E1, E2, E3, E4.
Qed.

Lemma apply_calib_overwrites_witness :
  same_calibration (snd (apply_calib cursors_100_300))
                   (snd (apply_calib calibrated_100_300)) /\
  apply_calib (snd (apply_calib cursors_100_300))
  = apply_calib cursors_100_300.
Proof.
  destruct apply_calib_overwrites as [I O].
  split; [ | apply I].
  apply O; reflexivity.
Defined.

(* ------------------------------------------------------------------ *)
(** ** The range of the profile *)

Lemma Qsum_bounds (lo hi : Q) (l : list Q) :
  Forall (fun v => lo <= v <= hi) l ->
  inject_Z (Z.of_nat (length l)) * lo <= Qsum l
  <= inject_Z (Z.of_nat (length l)) * hi.
Proof.
  induction 1 as [|v l [Lv Hv] F IH].
  - cbn [length Qsum fold_right].
    change (inject_Z (Z.of_nat 0)) with 0. lra.
  - cbn [length Qsum fold_right]. fold (Qsum l).
    rewrite Nat2Z.inj_succ, <- Z.add_1_r, inject_Z_succ. nra.
Qed.

(** Every sample of the mean along axis 0 lies in the range of the array. *)
Lemma mean_axis0_bounds (lo hi : Q) (n k : nat) (a : Np.array2 Q) :
  a <> [] -> Forall (fun row => length row = n) a -> (k < n)%nat ->
  Forall (Forall (fun v => lo <= v <= hi)) a ->
  lo <= nth k (Np.mean_axis0 a) 0 <= hi.
Proof.
  intros Ne L Hk B.
  destruct (@mean_axis0_spec n k a Ne L Hk) as [_ N]. rewrite N.
  assert (Col : Forall (fun v => lo <= v <= hi)
                  (map (fun row => nth k row 0) a)).
  { apply Forall_map. rewrite Forall_forall in *. intros row Hin.
    specialize (B row Hin). rewrite Forall_forall in B.
    apply B. apply nth_In. rewrite (L row Hin). exact Hk. }
  apply Qsum_bounds in Col. rewrite length_map in Col.
  assert (P : 0 < inject_Z (Z.of_nat (length a))).
  { change 0 with (inject_Z 0). rewrite <- Zlt_Qlt.
    destruct a; [congruence | simpl; lia]. }
  set (m := inject_Z (Z.of_nat (length a))) in *.
  split.
  - apply Qle_shift_div_l; [exact P | ]. lra.
  - apply Qle_shift_div_r; [exact P | ]. lra.
Qed.

Section Range.

Variable getArrayRegion :
  Pg.RectROI -> Np.array2 Z -> option (Np.array2 Z) -> option (Np.array2 Q).

(** X10. Whatever routine extracts the region: when it returns a non-empty
    array of [n] columns whose entries lie between [lo] and [hi], the
    reducer returns a profile of [n] samples that all lie between [lo] and
    [hi] (an 8-bit region gives intensities in 0..255), and a region of one
    constant value gives a flat profile of that value. *)
Theorem profile_within_range (roi : Pg.RectROI) (gray : Np.array2 Z)
  (img : option (Np.array2 Z)) (a : Np.array2 Q) (n : nat) (lo hi : Q) :
  getArrayRegion roi gray img = Some a ->
  a <> [] -> (0 < n)%nat ->
  Forall (fun row => length row = n) a ->
  Forall (Forall (fun v => lo <= v <= hi)) a ->
  exists spec,
    reduce getArrayRegion roi gray img = Profile spec /\
    length spec = n /\
    Forall (fun v => lo <= v <= hi) spec /\
    (lo == hi -> Forall (fun v => v == lo) spec).
Proof.
  intros G Ne Hn L B.
  exists (Np.mean_axis0 a).
  assert (Len : length (Np.mean_axis0 a) = n).
  { now destruct (@mean_axis0_spec n 0%nat a Ne L Hn). }
  assert (In : Forall (fun v => lo <= v <= hi) (Np.mean_axis0 a)).
  { apply Forall_nth. intros k d Hk. rewrite Len in Hk.
    rewrite (nth_indep _ d 0) by (rewrite Len; exact Hk).
    now apply mean_axis0_bounds with (n := n). }
  split; [ | split; [exact Len | split; [exact In | ]]].
  - unfold reduce. rewrite G.
    assert (S : Np.size a <> 0%nat).
    { unfold Np.size, Np.shape. simpl.
      destruct a as [|row a']; [congruence | ].
      apply Forall_cons_iff in L. destruct L as [Lr _].
      simpl. rewrite Lr. lia. }
    destruct (Nat.eqb_spec (Np.size a) 0); [contradiction | reflexivity].
  - intro E. eapply Forall_impl; [ | exact In].
    intros v [A C]. simpl in *. lra.
Qed.

End Range.

Lemma profile_within_range_witness :
  exists spec,
    reduce (Pg.getArrayRegion Pg.row_major) roi_10x4 ramp_frame None
      = Profile spec /\
    length spec = 10%nat /\
    Forall (fun v => 0 <= v <= 255) spec.
Proof.
  assert (G : (Pg.getArrayRegion Pg.row_major) roi_10x4 ramp_frame None
              = Some (Pg.crop ramp_frame 0 4 0 10)) by reflexivity.
  assert (Ne : Pg.crop ramp_frame 0 4 0 10 <> []) by discriminate.
  assert (Hn : (0 < 10)%nat) by lia.
  assert (L : Forall (fun row => length row = 10%nat)
                (Pg.crop ramp_frame 0 4 0 10)) by (repeat constructor).
  assert (B : Forall (Forall (fun v => 0 <= v <= 255))
                (Pg.crop ramp_frame 0 4 0 10)).
  { repeat constructor; vm_compute; discriminate. }
  destruct (@profile_within_range (Pg.getArrayRegion Pg.row_major) roi_10x4
              ramp_frame None
              _ 10%nat 0 255 G Ne Hn L B) as (spec & E & Len & In & _).
  exists spec. auto.
Defined.

(* ------------------------------------------------------------------ *)
(** ** What [Webcam.read] does to the pixels *)

Section ReadPixels.

Variable A : Type.

Lemma rectangular_rev (frame : Np.array2 A) (H W : nat) :
  rectangular frame H W -> rectangular (rev frame) H W.
Proof.
  intros [HL HW]. split; [now rewrite length_rev | now apply Forall_rev].
Qed.

Lemma rectangular_map_rev (frame : Np.array2 A) (H W : nat) :
  rectangular frame H W -> rectangular (map (@rev A) frame) H W.
Proof.
  intros [HL HW]. split; [now rewrite length_map | ].
  apply Forall_map. eapply Forall_impl; [ | exact HW].
  intros row L. now rewrite length_rev.
Qed.

Lemma pixel_at_rev (frame : Np.array2 A) (H W r c : nat) :
  rectangular frame H W -> (r < H)%nat ->
  pixel_at (rev frame) r c = pixel_at frame (H - 1 - r) c.
Proof.
  intros [HL _] Hr. unfold pixel_at. rewrite nth_error_rev, HL.
  destruct (Nat.ltb_spec r H) as [_|]; [ | lia].
  now replace (H - S r)%nat with (H - 1 - r)%nat by lia.
Qed.

Lemma pixel_at_map_rev (frame : Np.array2 A) (H W r c : nat) :
  rectangular frame H W -> (c < W)%nat ->
  pixel_at (map (@rev A) frame) r c = pixel_at frame r (W - 1 - c).
Proof.
  intros [_ HW] Hc. unfold pixel_at. rewrite nth_error_map.
  destruct (nth_error frame r) as [row|] eqn:E; simpl; [ | reflexivity].
  assert (L : length row = W).
  { rewrite Forall_forall in HW. apply HW. eapply nth_error_In. exact E. }
  rewrite nth_error_rev, L.
  destruct (Nat.ltb_spec c W) as [_|]; [ | lia].
  now replace (W - S c)%nat with (W - 1 - c)%nat by lia.
Qed.

(** X11. For each of the four settings of the two flip flags, the frame
    [Webcam.read] returns has the size of the raw frame, and its pixel at
    row r, column c is the raw pixel at row r (or H-1-r when the vertical
    flag is set), column c (or W-1-c when the horizontal flag is set): a
    flip moves pixels and never changes or drops one. *)
Theorem read_moves_pixels (self : Webcam) (frame : Np.array2 A)
  (H W r c : nat) :
  rectangular frame H W -> (r < H)%nat -> (c < W)%nat ->
  exists out,
    read self (Some frame) = Returned out /\
    rectangular out H W /\
    pixel_at out r c
    = pixel_at frame (if flip_v self then H - 1 - r else r)%nat
                     (if flip_h self then W - 1 - c else c)%nat.
Proof.
  intros R Hr Hc. unfold read.
  change (Cv2.flip frame 1) with (map (@rev A) frame).
  destruct (flip_h self), (flip_v self); eexists;
    (split; [reflexivity | ]).
  - change (Cv2.flip (map (@rev A) frame) 0) with (rev (map (@rev A) frame)).
    split; [now apply rectangular_rev, rectangular_map_rev | ].
    rewrite (@pixel_at_rev (map (@rev A) frame) H W r c
               (rectangular_map_rev R) Hr).
    now apply pixel_at_map_rev with (H := H).
  - split; [now apply rectangular_map_rev | ].
    now apply pixel_at_map_rev with (H := H).
  - change (Cv2.flip frame 0) with (rev frame).
    split; [now apply rectangular_rev | ].
    now apply pixel_at_rev with (W := W).
  - split; [exact R | reflexivity].
Qed.

End ReadPixels.

Lemma read_moves_pixels_witness :
  exists out,
    read {| flip_h := true; flip_v := false |} (Some small_frame)
      = Returned out /\
    rectangular out 2 3 /\
    pixel_at out 1 0 = Some (grey 6).
Proof.
  assert (R : rectangular small_frame 2 3).
  { split; [reflexivity | repeat constructor]. }
  destruct (@read_moves_pixels bgr {| flip_h := true; flip_v := false |}
              small_frame 2 3 1 0 R) as (out & E & S & P); try lia.
  exists out. split; [exact E | split; [exact S | ]].
  rewrite P. reflexivity.
Defined.

(* ------------------------------------------------------------------ *)
(** ** Flips and the profile *)

Lemma Qsum_app (l m : list Q) : Qsum (l ++ m) == Qsum l + Qsum m.
Proof.
  induction l as [|v l IH]; simpl; [ring | ]. rewrite IH. ring.
Qed.

Lemma Qsum_rev (l : list Q) : Qsum (rev l) == Qsum l.
Proof.
  induction l as [|v l IH]; simpl; [reflexivity | ].
  rewrite Qsum_app, IH. simpl. ring.
Qed.

(** Reversing the rows of an array leaves its mean along axis 0. *)
Lemma mean_axis0_rev (n k : nat) (a : Np.array2 Q) :
  a <> [] -> Forall (fun row => length row = n) a -> (k < n)%nat ->
  nth k (Np.mean_axis0 (rev a)) 0 == nth k (Np.mean_axis0 a) 0.
Proof.
  intros Ne L Hk.
  assert (Ne' : rev a <> []).
  { intro E. apply Ne. apply (f_equal (@rev _)) in E.
    now rewrite rev_involutive in E. }
  destruct (@mean_axis0_spec n k a Ne L Hk) as [_ N].
  destruct (@mean_axis0_spec n k (rev a) Ne' (Forall_rev L) Hk) as [_ N'].
  rewrite N, N', length_rev, map_rev, Qsum_rev. reflexivity.
Qed.

(** Reversing each row of an array mirrors its mean along axis 0. *)
Lemma mean_axis0_map_rev (n k : nat) (a : Np.array2 Q) :
  a <> [] -> Forall (fun row => length row = n) a -> (k < n)%nat ->
  nth k (Np.mean_axis0 (map (@rev Q) a)) 0
  == nth (n - 1 - k) (Np.mean_axis0 a) 0.
Proof.
  intros Ne L Hk.
  assert (Ne' : map (@rev Q) a <> [])
    by (destruct a; [congruence | discriminate]).
  assert (L' : Forall (fun row => length row = n) (map (@rev Q) a)).
  { apply Forall_map. eapply Forall_impl; [ | exact L].
    intros row E. now rewrite length_rev. }
  assert (Hk' : (n - 1 - k < n)%nat) by lia.
  destruct (@mean_axis0_spec n (n - 1 - k) a Ne L Hk') as [_ N].
  destruct (@mean_axis0_spec n k (map (@rev Q) a) Ne' L' Hk) as [_ N'].
  rewrite N, N', length_map, map_map.
  rewrite (map_ext_in _ (fun row => nth (n - 1 - k) row 0));
    [reflexivity | ].
  intros row Hin. rewrite Forall_forall in L. specialize (L row Hin).
  rewrite rev_nth by lia. f_equal. lia.
Qed.

Lemma floats_flip (gray : Np.array2 Z) :
  floats (Cv2.flip gray 0) = rev (floats gray) /\
  floats (Cv2.flip gray 1) = map (@rev Q) (floats gray).
Proof.
  unfold floats. split.
  - change (Cv2.flip gray 0) with (rev gray). apply map_rev.
  - change (Cv2.flip gray 1) with (map (@rev Z) gray).
    rewrite !map_map. apply map_ext. intro row. apply map_rev.
Qed.

Section FlipsAndProfile.

Variable pixel : Type.
Variable BGR2GRAY : pixel -> Z.
Variable getArrayRegion :
  Pg.RectROI -> Np.array2 Z -> option (Np.array2 Z) -> option (Np.array2 Q).

Local Notation "'gray_of' frame" := (Cv2.cvtColor BGR2GRAY frame)
  (at level 10, frame at level 9).

(** The gray frame of a flipped frame is the flipped gray frame. *)
Lemma cvtColor_flip (frame : Np.array2 pixel) :
  gray_of (Cv2.flip frame 0) = Cv2.flip (gray_of frame) 0 /\
  gray_of (Cv2.flip frame 1) = Cv2.flip (gray_of frame) 1.
Proof.
  unfold Cv2.cvtColor. split.
  - change (Cv2.flip frame 0) with (rev frame). apply map_rev.
  - change (Cv2.flip frame 1) with (map (@rev pixel) frame).
    change (Cv2.flip (map (map BGR2GRAY) frame) 1)
      with (map (@rev Z) (map (map BGR2GRAY) frame)).
    rewrite !map_map. apply map_ext. intro row. apply map_rev.
Qed.

(** The reducer on a region array that is not empty. *)
Lemma reduce_region_array (roi : Pg.RectROI) (gray : Np.array2 Z) img
  (a : Np.array2 Q) (n : nat) :
  getArrayRegion roi gray img = Some a ->
  a <> [] -> (0 < n)%nat -> Forall (fun row => length row = n) a ->
  reduce getArrayRegion roi gray img = Profile (Np.mean_axis0 a) /\
  length (Np.mean_axis0 a) = n.
Proof.
  intros G Ne Hn L. split.
  - unfold reduce. rewrite G.
    assert (S : Np.size a <> 0%nat).
    { unfold Np.size, Np.shape. simpl.
      destruct a as [|row a']; [congruence | ].
      apply Forall_cons_iff in L. destruct L as [Lr _].
      simpl. rewrite Lr. lia. }
    destruct (Nat.eqb_spec (Np.size a) 0); [contradiction | reflexivity].
  - now destruct (@mean_axis0_spec n 0%nat a Ne L Hn).
Qed.

(** X12. When the region covers the whole frame, so that the region array
    is the gray frame itself: a vertical flip of the camera frame leaves
    every sample of the profile as it was, and a horizontal flip mirrors
    the profile, sample c taking the value sample W-1-c had. *)
Theorem flips_and_profile (roi : Pg.RectROI) (frame : Np.array2 pixel)
  (H W : nat) img img_v img_h :
  rectangular frame H W -> (0 < H)%nat -> (0 < W)%nat ->
  getArrayRegion roi (gray_of frame) img = Some (floats (gray_of frame)) ->
  getArrayRegion roi (gray_of (Cv2.flip frame 0)) img_v
    = Some (floats (gray_of (Cv2.flip frame 0))) ->
  getArrayRegion roi (gray_of (Cv2.flip frame 1)) img_h
    = Some (floats (gray_of (Cv2.flip frame 1))) ->
  exists p pv ph,
    reduce getArrayRegion roi (gray_of frame) img = Profile p /\
    reduce getArrayRegion roi (gray_of (Cv2.flip frame 0)) img_v
      = Profile pv /\
    reduce getArrayRegion roi (gray_of (Cv2.flip frame 1)) img_h
      = Profile ph /\
    length p = W /\ length pv = W /\ length ph = W /\
    forall c, (c < W)%nat ->
      nth c pv 0 == nth c p 0 /\ nth c ph 0 == nth (W - 1 - c) p 0.
Proof.
  intros [HL HW] HH HWp G Gv Gh.
  destruct (cvtColor_flip frame) as [Cv Ch].
  destruct (floats_flip (gray_of frame)) as [Fv Fh].
  rewrite Cv, Fv in Gv. rewrite Ch, Fh in Gh. rewrite Cv. rewrite Ch.
  set (a := floats (gray_of frame)) in *.
  assert (Ne : a <> []).
  { unfold a, floats, Cv2.cvtColor.
    destruct frame; [simpl in HL; lia | discriminate]. }
  assert (L : Forall (fun row => length row = W) a).
  { unfold a, floats, Cv2.cvtColor. rewrite map_map. apply Forall_map.
    eapply Forall_impl; [ | exact HW].
    intros row E. now rewrite !length_map. }
  assert (Nv : rev a <> []).
  { intro E. apply Ne. apply (f_equal (@rev _)) in E.
    now rewrite rev_involutive in E. }
  assert (Nh : map (@rev Q) a <> [])
    by (destruct a; [congruence | discriminate]).
  assert (Lh : Forall (fun row => length row = W) (map (@rev Q) a)).
  { apply Forall_map. eapply Forall_impl; [ | exact L].
    intros row E. now rewrite length_rev. }
  destruct (reduce_region_array G Ne HWp L) as [R0 L0].
  destruct (reduce_region_array Gv Nv HWp (Forall_rev L)) as [R1 L1].
  destruct (reduce_region_array Gh Nh HWp Lh) as [R2 L2].
  exists (Np.mean_axis0 a), (Np.mean_axis0 (rev a)),
         (Np.mean_axis0 (map (@rev Q) a)).
  repeat (split; [assumption | ]).
  intros c Hc. split.
  - now apply mean_axis0_rev with (n := W).
  - now apply mean_axis0_map_rev.
Qed.

End FlipsAndProfile.

Lemma flips_and_profile_witness :
  exists p pv ph,
    reduce (Pg.getArrayRegion Pg.row_major) (full_frame 2 3)
      (Cv2.cvtColor luma small_frame) None = Profile p /\
    reduce (Pg.getArrayRegion Pg.row_major) (full_frame 2 3)
      (Cv2.cvtColor luma (Cv2.flip small_frame 0)) None = Profile pv /\
    reduce (Pg.getArrayRegion Pg.row_major) (full_frame 2 3)
      (Cv2.cvtColor luma (Cv2.flip small_frame 1)) None = Profile ph /\
    nth 0 pv 0 == nth 0 p 0 /\ nth 0 ph 0 == nth 2 p 0.
Proof.
  assert (R : rectangular small_frame 2 3).
  { split; [reflexivity | repeat constructor]. }
  destruct (@flips_and_profile bgr luma (Pg.getArrayRegion Pg.row_major)
              (full_frame 2 3) small_frame 2 3 None None None R)
    as (p & pv & ph & E & Ev & Eh & _ & _ & _ & K);
    try lia; try reflexivity.
  exists p, pv, ph. repeat (split; [assumption | ]).
  apply (K 0%nat). lia.
Defined.

(* ------------------------------------------------------------------ *)
(** ** The scenarios of the further properties *)

Lemma only_failed_read_raises_witness :
  fst (handle luma getArrayRegion_default (Timeout (Some ramp_bgr))
         (run luma getArrayRegion_default init session)) = Returned tt /\
  fst (handle luma getArrayRegion_default (Timeout None)
         (run luma getArrayRegion_default init session))
  = Raised (RuntimeError "Frame non disponibile").
Proof.
  split.
  - apply (only_failed_read_raises luma getArrayRegion_default session).
    discriminate.
  - now apply (only_failed_read_raises luma getArrayRegion_default session).
Defined.

Lemma curve_always_aligned_witness :
  curve_aligned (run luma getArrayRegion_default init session) /\
  curve_aligned (step luma getArrayRegion_default
                   (run luma getArrayRegion_default init session)
                   (Timeout (Some ramp_bgr))).
Proof.
  destruct (curve_always_aligned luma getArrayRegion_default session) as [A B].
  split; [exact A | apply B; exact A].
Defined.

Lemma displayed_image_is_transposed_gray_witness :
  exists img,
    img_view (snd (update_frame luma getArrayRegion_default (Some small_frame)
                     init)) = Some img /\
    pixel_at img 2 1 = Some 6%Z.
Proof.
  assert (R : read (cam init) (Some small_frame) = Returned small_frame)
    by reflexivity.
  assert (Rect : rectangular small_frame 2 3).
  { split; [reflexivity | repeat constructor]. }
  destruct (@displayed_image_is_transposed_gray bgr luma getArrayRegion_default
              (Some small_frame) small_frame init 2 3 1 2 R Rect)
    as (img & E & P); try lia.
  exists img. split; [exact E | ]. rewrite P. reflexivity.
Defined.

(* ------------------------------------------------------------------ *)
(** ** Construction of the window *)

(** X13. [SpectrometerGUI.__init__] never completes: [_build_controls] is
    called before [self.cam] is assigned, and the argument of its first
    slider reads [self.cam], so the constructor ends with AttributeError on
    [cam], whether or not the camera could be opened, for any base class
    that defines no attribute of that name.  At the raise the two flip
    checkboxes are the last attributes defined; [cam], the spin boxes and
    [timer] are not, hence no timer ever runs [update_frame]. *)
Theorem constructor_reads_cam_too_early (isOpened : bool)
  (base : Construct.attrs) :
  ~ In "cam"%string base ->
  Construct.SpectrometerGUI_init isOpened base
  = (Raised (AttributeError "cam"),
     ["chk_flip_v"; "chk_flip_h"; "calib_set"; "l2"; "l1"; "spec_curve";
      "spec_plot"; "roi"; "img_view"]%string ++ base) /\
  forall name, In name ["cam"; "spin_l1"; "spin_l2"; "timer"]%string ->
    ~ In name base ->
    ~ In name (snd (Construct.SpectrometerGUI_init isOpened base)).
Proof.
  intro NoCam.
  set (defined := (["chk_flip_v"; "chk_flip_h"; "calib_set"; "l2"; "l1";
                    "spec_curve"; "spec_plot"; "roi"; "img_view"]%string
                   ++ base)).
  assert (NC : ~ In "cam"%string defined).
  { unfold defined. intro I. apply in_app_or in I. destruct I as [I|I].
    - simpl in I. repeat (destruct I as [I|I]; [discriminate I | ]).
      exact I.
    - now apply NoCam. }
  assert (E : Construct.SpectrometerGUI_init isOpened base
              = (Raised (AttributeError "cam"), defined)).
  { unfold Construct.SpectrometerGUI_init, Construct._build_controls,
      Construct.add_slider, Construct.setattr, Construct.getattr,
      Construct.hasattr, bind, modify, ret.
    repeat (cbn [existsb orb];
            match goal with
            | |- context [String.eqb ?a ?b] =>
                let v := eval vm_compute in (String.eqb a b) in
                change (String.eqb a b) with v
            end).
    cbn [existsb orb].
    destruct (existsb (String.eqb "cam") base) eqn:X; [ | reflexivity].
    apply existsb_exists in X. destruct X as (name & I & X).
    apply String.eqb_eq in X. subst name. contradiction. }
  split; [exact E | ].
  intros name Hn Nb. rewrite E. simpl snd. unfold defined.
  intro I. apply in_app_or in I. destruct I as [I|I]; [ | now apply Nb].
  simpl in Hn, I.
  repeat (destruct Hn as [Hn|Hn];
          [subst name;
           repeat (destruct I as [I|I]; [discriminate I | ]); exact I | ]).
  exact Hn.
Qed.

Lemma constructor_reads_cam_too_early_witness :
  Construct.SpectrometerGUI_init true []
  = (Raised (AttributeError "cam"),
     ["chk_flip_v"; "chk_flip_h"; "calib_set"; "l2"; "l1"; "spec_curve";
      "spec_plot"; "roi"; "img_view"]%string) /\
  ~ In "timer"%string (snd (Construct.SpectrometerGUI_init true [])).
Proof.
  assert (N : ~ In "cam"%string (@nil string)) by (intros []).
  destruct (@constructor_reads_cam_too_early true [] N) as [E K].
  split; [exact E | ].
  apply K; [simpl; tauto | intros []].
Defined.

(* ------------------------------------------------------------------ *)
(** ** Only a tick draws *)

Section Drawing.

Variable pixel : Type.
Variable BGR2GRAY : pixel -> Z.
Variable getArrayRegion :
  Pg.RectROI -> Np.array2 Z -> option (Np.array2 Z) -> option (Np.array2 Q).

(** X14. Nothing but a tick changes what is displayed: flip toggles, region
    edits, cursor moves, spin-box edits, slider moves and the calibration
    button leave the image, the curve and the bottom label as they are.  In
    particular a calibration does not relabel or rescale the curve by
    itself; the wavelength axis appears with the next tick that redraws. *)
Theorem only_a_tick_draws (self : SpectrometerGUI) (e : event pixel) :
  (forall cap, e <> Timeout cap) ->
  img_view (step BGR2GRAY getArrayRegion self e) = img_view self /\
  spec_curve (step BGR2GRAY getArrayRegion self e) = spec_curve self /\
  spec_label (step BGR2GRAY getArrayRegion self e) = spec_label self.
Proof.
  intro NT. destruct e as [cap| | | | | | | | | ];
    try (repeat split; fail).
  - now destruct (NT cap).
  - unfold step, handle. destruct (PrimFloat.eqb (l1 self) (l2 self)) eqn:E.
    + rewrite apply_calib_equal by exact E.
      repeat split.
    + rewrite apply_calib_distinct by exact E.
      repeat split.
Qed.

End Drawing.

Lemma only_a_tick_draws_witness :
  calib_set (step luma getArrayRegion_default cursors_100_300
               (Calib_clicked bgr))
    = true /\
  spec_label (step luma getArrayRegion_default cursors_100_300
                (Calib_clicked bgr))
    = Pixel.
Proof.
  split; [reflexivity | ].
  destruct (@only_a_tick_draws bgr luma getArrayRegion_default cursors_100_300
              (Calib_clicked bgr)) as (_ & _ & L).
  - intros cap. discriminate.
  - rewrite L. reflexivity.
Defined.
